(** * Timetable export glue (app.js and teachers.js)

    A shallow embedding of the two browser scripts of the timetable
    application: the status toast helper, the single-card export helper,
    the batch multi-page PDF export, the per-card dispatchers with their
    click handlers, the teacher search filter, the form and slot
    listeners, the library checks and the timer callbacks.

    Conventions of the embedding.
    - JavaScript numbers are IEEE-754 binary64 values: the primitive
      [float] of the kernel.  The page-fit arithmetic is written once,
      over an interface of the four operations it uses, and is read at
      [float] (what the scripts compute) and at [Q] (exact arithmetic).
    - JavaScript strings are [string]; the character classes used by
      [trim], [/\s+/g], [toLowerCase] and [toUpperCase] are the ASCII
      ones (bytes above 127 are neither blank nor cased).
    - The page, the console, the pending timers, the files handed to the
      browser and the calls made to the rasterizer form a [World] that is
      threaded through every routine; a routine either returns or throws.
    - An [async] function is run to completion: [await] is sequencing,
      a rejected promise is a thrown exception. *)

From Stdlib Require Import String Ascii List Bool ZArith NArith QArith Qminmax.
From Stdlib Require Import Lia Lqa PrimFloat.
Import ListNotations.

Set Warnings "-inexact-float".
Set Implicit Arguments.

Local Close Scope Q_scope.
Local Open Scope string_scope.
Local Open Scope list_scope.

(* ================================================================= *)
(** ** Numbers *)

(** The operations on numbers that the export routines use. *)
Class JsArith (R : Type) : Type := {
  num_div : R -> R -> R;
  num_mul : R -> R -> R;
  num_sub : R -> R -> R;
  num_min : R -> R -> R;
  num_two : R
}.

(** [Math.min] on two doubles: NaN if either is NaN, and -0 below +0. *)
Definition mathMin (a b : float) : float :=
  if (PrimFloat.is_nan a || PrimFloat.is_nan b)%bool then PrimFloat.nan
  else if PrimFloat.ltb a b then a
  else if PrimFloat.ltb b a then b
  else if PrimFloat.get_sign a then a else b.

#[export] Instance JsArith_float : JsArith float := {
  num_div := PrimFloat.div;
  num_mul := PrimFloat.mul;
  num_sub := PrimFloat.sub;
  num_min := mathMin;
  num_two := 2%float
}.

#[export] Instance JsArith_Q : JsArith Q := {
  num_div := Qdiv;
  num_mul := Qmult;
  num_sub := Qminus;
  num_min := Qmin;
  num_two := 2%Q
}.

(** The fit-to-page placement, part_000 lines 112-119 and 177-184,
    teachers.js lines 78-85 and 146-153 (the four copies are identical). *)
Record Placement (R : Type) : Type := {
  ratio : R;
  imgWidth : R;
  imgHeight : R;
  imgX : R;
  imgY : R
}.

Definition placement {R : Type} `{JsArith R}
    (pageWidth pageHeight canvasWidth canvasHeight : R) : Placement R :=
  let ratio := num_min (num_div pageWidth canvasWidth)
                       (num_div pageHeight canvasHeight) in
  let imgWidth := num_mul canvasWidth ratio in
  let imgHeight := num_mul canvasHeight ratio in
  let x := num_div (num_sub pageWidth imgWidth) num_two in
  let y := num_div (num_sub pageHeight imgHeight) num_two in
  {| ratio := ratio; imgWidth := imgWidth; imgHeight := imgHeight;
     imgX := x; imgY := y |}.

(** The page of [new jsPDF("l", "pt", "a4")], in points. *)
Definition a4LandscapeWidth : float := 841.89%float.
Definition a4LandscapeHeight : float := 595.28%float.

(* ================================================================= *)
(** ** Strings *)

(** White space of [\s] and of [trim], within ASCII:
    TAB, LF, VT, FF, CR and SPACE. *)
Definition is_space (c : ascii) : bool :=
  let n := N_of_ascii c in
  ((9 <=? n) && (n <=? 13) || (n =? 32))%N.

Definition lower_ascii (c : ascii) : ascii :=
  let n := N_of_ascii c in
  if ((65 <=? n) && (n <=? 90))%N then ascii_of_N (n + 32) else c.

Definition upper_ascii (c : ascii) : ascii :=
  let n := N_of_ascii c in
  if ((97 <=? n) && (n <=? 122))%N then ascii_of_N (n - 32) else c.

Fixpoint map_string (f : ascii -> ascii) (s : string) : string :=
  match s with
  | EmptyString => EmptyString
  | String c r => String (f c) (map_string f r)
  end.

Definition toLowerCase (s : string) : string := map_string lower_ascii s.
Definition toUpperCase (s : string) : string := map_string upper_ascii s.

Fixpoint trimStart (s : string) : string :=
  match s with
  | EmptyString => EmptyString
  | String c r => if is_space c then trimStart r else s
  end.

Fixpoint trimEnd (s : string) : string :=
  match s with
  | EmptyString => EmptyString
  | String c r =>
      match trimEnd r with
      | EmptyString => if is_space c then EmptyString else String c EmptyString
      | r' => String c r'
      end
  end.

Definition trim (s : string) : string := trimEnd (trimStart s).

Fixpoint startsWith (s q : string) : bool :=
  match q, s with
  | EmptyString, _ => true
  | String _ _, EmptyString => false
  | String b q', String a s' => Ascii.eqb a b && startsWith s' q'
  end.

(** [haystack.includes(query)]: the query occurs at some position. *)
Fixpoint includes (s q : string) : bool :=
  startsWith s q ||
  match s with
  | EmptyString => false
  | String _ r => includes r q
  end.

(** [s.replace(/\s+/g, "_")]: scanning from the left, every maximal run
    of white space is one match and becomes one underscore.  [in_run]
    tells that the previous character belonged to the current match. *)
Fixpoint replaceSpaceRuns (in_run : bool) (s : string) : string :=
  match s with
  | EmptyString => EmptyString
  | String c r =>
      if is_space c
      then if in_run then replaceSpaceRuns true r
           else String "_" (replaceSpaceRuns true r)
      else String c (replaceSpaceRuns false r)
  end.

Definition safeName (filenameBase : string) : string :=
  replaceSpaceRuns false filenameBase.

Definition pngName (filenameBase : string) : string :=
  safeName filenameBase ++ ".png".

Definition pdfName (filenameBase : string) : string :=
  safeName filenameBase ++ ".pdf".

(** [a || b] on a possibly missing attribute: the empty string and
    [null] are both falsy. *)
Definition orElse (o : option string) (d : string) : string :=
  match o with
  | Some s => if String.eqb s "" then d else s
  | None => d
  end.


(* ================================================================= *)
(** ** The page, the browser and the two libraries *)

(** A thrown JavaScript value. *)
Definition Exn : Type := string.

Inductive outcome (A : Type) : Type :=
| Ret (a : A)
| Throw (e : Exn).
Arguments Ret {A} a.
Arguments Throw {A} e.

(** A DOM element that can be rasterized (a table wrapper). *)
Definition Element : Type := nat.

(** What [html2canvas] resolves to: the canvas sizes and the result of
    [canvas.toDataURL("image/png")], which may itself throw. *)
Record Canvas : Type := {
  width : float;
  height : float;
  toDataURL : outcome string
}.

(** A card: its attributes, the descendants that its selectors reach,
    and [style.display]. *)
Record Card : Type := {
  attributes : list (string * string);
  descendants : list (string * Element);
  display : string
}.

Fixpoint assoc {V : Type} (k : string) (l : list (string * V)) : option V :=
  match l with
  | [] => None
  | (k', v) :: r => if String.eqb k k' then Some v else assoc k r
  end.

Definition getAttribute (card : Card) (name : string) : option string :=
  assoc name (attributes card).

Definition querySelector (card : Card) (selector : string) : option Element :=
  assoc selector (descendants card).

Definition setDisplay (card : Card) (value : string) : Card :=
  {| attributes := attributes card;
     descendants := descendants card;
     display := value |}.

(** The toast element [#status-message]. *)
Record StatusEl : Type := {
  textContent : string;
  classList : list string
}.

Definition classList_add (el : StatusEl) (c : string) : StatusEl :=
  {| textContent := textContent el;
     classList := if existsb (String.eqb c) (classList el)
                  then classList el else classList el ++ [c] |}.

(** One drawing on a page of a jsPDF document. *)
Record PdfImage : Type := {
  imageData : string;
  atX : float;
  atY : float;
  drawnWidth : float;
  drawnHeight : float
}.

Record PdfText : Type := {
  text : string;
  textX : Z;
  textY : Z;
  textColor : option (Z * Z * Z);
  fontSize : option Z
}.

Record Page : Type := {
  images : list PdfImage;
  texts : list PdfText
}.

Definition blankPage : Page := {| images := []; texts := [] |}.

(** A jsPDF document.  [new jsPDF] already holds one page, which is the
    current one; [addPage] closes the current page and opens a blank one
    (this is why the batch loops call [addPage] for every card but the
    first).  Drawing goes to the current page. *)
Record Pdf : Type := {
  earlier : list Page;
  current : Page;
  curTextColor : option (Z * Z * Z);
  curFontSize : option Z
}.

Definition pages (pdf : Pdf) : list Page := earlier pdf ++ [current pdf].

Definition newJsPDF : Pdf :=
  {| earlier := []; current := blankPage;
     curTextColor := None; curFontSize := None |}.

Definition addPage (pdf : Pdf) : Pdf :=
  {| earlier := earlier pdf ++ [current pdf]; current := blankPage;
     curTextColor := curTextColor pdf; curFontSize := curFontSize pdf |}.

Definition drawImage (pdf : Pdf) (img : PdfImage) : Pdf :=
  {| earlier := earlier pdf;
     current := {| images := images (current pdf) ++ [img];
                   texts := texts (current pdf) |};
     curTextColor := curTextColor pdf; curFontSize := curFontSize pdf |}.

Definition setTextColor (pdf : Pdf) (r g b : Z) : Pdf :=
  {| earlier := earlier pdf; current := current pdf;
     curTextColor := Some (r, g, b); curFontSize := curFontSize pdf |}.

Definition setFontSize (pdf : Pdf) (size : Z) : Pdf :=
  {| earlier := earlier pdf; current := current pdf;
     curTextColor := curTextColor pdf; curFontSize := Some size |}.

Definition drawText (pdf : Pdf) (s : string) (x y : Z) : Pdf :=
  {| earlier := earlier pdf;
     current := {| images := images (current pdf);
                   texts := texts (current pdf) ++
                     [{| text := s; textX := x; textY := y;
                         textColor := curTextColor pdf;
                         fontSize := curFontSize pdf |}] |};
     curTextColor := curTextColor pdf; curFontSize := curFontSize pdf |}.

(** A file handed to the browser as a download. *)
Inductive File : Type :=
| PngFile (name : string) (data : string)
| PdfFile (name : string) (doc : Pdf).

Inductive Level : Type := LLog | LDebug | LWarn | LError.

Inductive TimerTask : Type :=
| HideToast
| ClearBoxShadow (el : Element).

(** Everything a routine can read and change. *)
Record World : Type := {
  statusEl : option StatusEl;
  teacherCards : list Card;
  styles : list (Element * string * string);
  timers : list (Z * TimerTask);
  console : list (Level * list string);
  downloads : list File;
  rasterized : list Element
}.

(** What is fixed when the page has loaded: which libraries and controls
    are there, the cards of the dashboard, and how the two libraries
    answer.  [pageWidth] and [pageHeight] are what
    [pdf.internal.pageSize] reports for [new jsPDF("l", "pt", "a4")]. *)
Record Env : Type := {
  hasHtml2Canvas : bool;
  hasJsPdf : bool;
  html2canvas : Element -> outcome Canvas;
  pageWidth : float;
  pageHeight : float;
  addImageError : string -> option Exn;
  saveError : string -> option Exn;
  getElementById : string -> option Card;
  classCards : list Card;
  btnExportAllPdf : bool;
  btnAll : bool
}.

(* ================================================================= *)
(** ** Routines: state passing with exceptions *)

Definition M (A : Type) : Type := World -> outcome A * World.

Definition ret {A : Type} (a : A) : M A := fun w => (Ret a, w).

Definition throw {A : Type} (e : Exn) : M A := fun w => (Throw e, w).

Definition bind {A B : Type} (m : M A) (k : A -> M B) : M B :=
  fun w =>
    match m w with
    | (Ret a, w') => k a w'
    | (Throw e, w') => (Throw e, w')
    end.

(** [try { body } catch (e) { handler }]. *)
Definition tryCatch {A : Type} (body : M A) (handler : Exn -> M A) : M A :=
  fun w =>
    match body w with
    | (Ret a, w') => (Ret a, w')
    | (Throw e, w') => handler e w'
    end.

Declare Scope js_scope.
Delimit Scope js_scope with js.
Notation "x <- m ;; k" := (bind m (fun x => k))
  (at level 61, m at next level, right associativity) : js_scope.
Notation "m ;; k" := (bind m (fun _ => k))
  (at level 61, right associativity) : js_scope.
Local Open Scope js_scope.

Definition set_statusEl (w : World) (el : option StatusEl) : World :=
  {| statusEl := el; teacherCards := teacherCards w; styles := styles w;
     timers := timers w; console := console w; downloads := downloads w;
     rasterized := rasterized w |}.

Definition set_teacherCards (w : World) (cards : list Card) : World :=
  {| statusEl := statusEl w; teacherCards := cards; styles := styles w;
     timers := timers w; console := console w; downloads := downloads w;
     rasterized := rasterized w |}.

Definition consoleWrite (level : Level) (args : list string) : M unit :=
  fun w =>
    (Ret tt,
     {| statusEl := statusEl w; teacherCards := teacherCards w;
        styles := styles w; timers := timers w;
        console := console w ++ [(level, args)];
        downloads := downloads w; rasterized := rasterized w |}).

Definition setTimeout (task : TimerTask) (delay : Z) : M unit :=
  fun w =>
    (Ret tt,
     {| statusEl := statusEl w; teacherCards := teacherCards w;
        styles := styles w; timers := timers w ++ [(delay, task)];
        console := console w; downloads := downloads w;
        rasterized := rasterized w |}).

Definition setStyle (el : Element) (property value : string) : M unit :=
  fun w =>
    (Ret tt,
     {| statusEl := statusEl w; teacherCards := teacherCards w;
        styles := styles w ++ [(el, property, value)]; timers := timers w;
        console := console w; downloads := downloads w;
        rasterized := rasterized w |}).

(** The browser receives a file. *)
Definition download (f : File) : M unit :=
  fun w =>
    (Ret tt,
     {| statusEl := statusEl w; teacherCards := teacherCards w;
        styles := styles w; timers := timers w; console := console w;
        downloads := downloads w ++ [f]; rasterized := rasterized w |}).

(** [await window.html2canvas(el, { backgroundColor, scale })]. *)
Definition callHtml2canvas (env : Env) (el : Element) : M Canvas :=
  fun w =>
    (html2canvas env el,
     {| statusEl := statusEl w; teacherCards := teacherCards w;
        styles := styles w; timers := timers w; console := console w;
        downloads := downloads w; rasterized := rasterized w ++ [el] |}).

Definition canvasToDataURL (canvas : Canvas) : M string :=
  fun w => (toDataURL canvas, w).

(** [pdf.addImage(imgData, "PNG", x, y, imgWidth, imgHeight)]. *)
Definition pdfAddImage (env : Env) (pdf : Pdf) (imgData : string)
    (p : Placement float) : M Pdf :=
  match addImageError env imgData with
  | Some e => throw e
  | None =>
      ret (drawImage pdf
             {| imageData := imgData; atX := imgX p; atY := imgY p;
                drawnWidth := imgWidth p; drawnHeight := imgHeight p |})
  end.

(** [pdf.save(name)]. *)
Definition pdfSave (env : Env) (pdf : Pdf) (name : string) : M unit :=
  match saveError env name with
  | Some e => throw e
  | None => download (PdfFile name pdf)
  end.

(** The toast that [showStatus] puts on the status element. *)
Definition toast (message type : string) : StatusEl :=
  let el := {| textContent := message;
               classList := ["tt-status__toast";
                             "tt-status__toast--visible"] |} in
  if String.eqb type "success"
  then classList_add el "tt-status__toast--success"
  else if String.eqb type "error"
       then classList_add el "tt-status__toast--error"
       else el.

(** The part of [showStatus] after the guard, the same in both files
    (part_000 lines 21-34, teachers.js lines 13-26). *)
Definition showToast (message type : string) (timeout : Z) : M unit :=
  fun w =>
    let w1 := set_statusEl w (Some (toast message type)) in
    if Z.eqb timeout 0 then (Ret tt, w1)
    else setTimeout HideToast timeout w1.

(** The body of the two batch loops (part_000 lines 166-193,
    teachers.js lines 135-162); they differ in the name attribute, the
    fallback caption and the wrapper selector only.  [pdf] and [first]
    are the loop's two mutable variables. *)
Fixpoint exportCards (env : Env) (nameAttr fallback selector : string)
    (cards : list Card) (pdf : Pdf) (first : bool) : M Pdf :=
  match cards with
  | [] => ret pdf
  | card :: rest =>
      let name := orElse (getAttribute card nameAttr) fallback in
      match querySelector card selector with
      | None => exportCards env nameAttr fallback selector rest pdf first
      | Some wrapper =>
          canvas <- callHtml2canvas env wrapper ;;
          imgData <- canvasToDataURL canvas ;;
          let p := placement (pageWidth env) (pageHeight env)
                             (width canvas) (height canvas) in
          let pdf1 := if first then pdf else addPage pdf in
          pdf2 <- pdfAddImage env pdf1 imgData p ;;
          let pdf3 := setFontSize (setTextColor pdf2 230 230 230) 14 in
          let pdf4 := drawText pdf3 name 30 30 in
          exportCards env nameAttr fallback selector rest pdf4 false
      end
  end.

(* ================================================================= *)
(** ** part_000 (app.js) *)

Module App.

(** [showStatus], lines 16-35. *)
Definition showStatus (message type : string) (timeout : Z) : M unit :=
  fun w =>
    match statusEl w with
    | None => consoleWrite LLog [toUpperCase type; message] w
    | Some _ => showToast message type timeout w
    end.

(** The check made when the page has loaded, lines 58-67. *)
Definition checkExportLibs (env : Env) : M unit :=
  if negb (hasHtml2Canvas env) || negb (hasJsPdf env)
  then showStatus
         "Export libraries not loaded (html2canvas/jsPDF). PNG/PDF export disabled."
         "error" 8000
  else ret tt.

(** [exportElementAs], lines 70-129. *)
Definition exportElementAs (env : Env) (format : string)
    (element : option Element) (filenameBase : string) : M unit :=
  if negb (hasHtml2Canvas env) || negb (hasJsPdf env)
  then showStatus "Export libraries not loaded." "error" 3500
  else
    match element with
    | None => showStatus "Timetable element not found." "error" 3500
    | Some element =>
        setStyle element "boxShadow" "0 0 0 2px rgba(59,130,246,0.7)" ;;
        setStyle element "transition" "box-shadow 180ms ease-out" ;;
        setTimeout (ClearBoxShadow element) 250 ;;
        tryCatch
          (canvas <- callHtml2canvas env element ;;
           imgData <- canvasToDataURL canvas ;;
           let safeName := safeName filenameBase in
           if String.eqb format "png"
           then
             download (PngFile (safeName ++ ".png") imgData) ;;
             showStatus ("Downloaded " ++ safeName ++ ".png") "success" 3500
           else if String.eqb format "pdf"
           then
             let pdf := newJsPDF in
             let p := placement (pageWidth env) (pageHeight env)
                                (width canvas) (height canvas) in
             pdf <- pdfAddImage env pdf imgData p ;;
             pdfSave env pdf (safeName ++ ".pdf") ;;
             showStatus ("Downloaded " ++ safeName ++ ".pdf") "success" 3500
           else ret tt)
          (fun e =>
             consoleWrite LError ["Export error:"; e] ;;
             showStatus "Error during export (check console)." "error" 3500)
    end.

(** [exportClass], lines 135-145. *)
Definition exportClass (env : Env) (classId format : string) : M unit :=
  consoleWrite LLog ["exportClass called"; classId; format] ;;
  match getElementById env ("class-card-" ++ classId) with
  | None => showStatus "Class card not found." "error" 3500
  | Some card =>
      let wrapper := querySelector card ".tt-class-card__table-wrapper" in
      let name := orElse (getAttribute card "data-class-name")
                         ("class-" ++ classId) in
      exportElementAs env format wrapper ("timetable-" ++ name)
  end.

(** [exportAllClassesPdf], lines 147-197. *)
Definition exportAllClassesPdf (env : Env) : M unit :=
  if negb (hasHtml2Canvas env) || negb (hasJsPdf env)
  then showStatus "Export libraries not loaded." "error" 3500
  else
    let cards := classCards env in
    match cards with
    | [] => showStatus "No class timetables to export." "error" 3500
    | _ :: _ =>
        showStatus "Preparing all class timetables as PDF…" "success" 7000 ;;
        let pdf := newJsPDF in
        pdf <- exportCards env "data-class-name" "class"
                 ".tt-class-card__table-wrapper" cards pdf true ;;
        pdfSave env pdf "timetable-all-classes.pdf" ;;
        showStatus "Downloaded timetable-all-classes.pdf" "success" 5000
    end.

(** The click listener of a per-class button, lines 203-209;
    [format] and [cid] are the button's two data attributes. *)
Definition classButton_click (env : Env) (format cid : string) : M unit :=
  if String.eqb cid "" || String.eqb format "" then ret tt
  else
    consoleWrite LLog ["Class button clicked"; cid; format] ;;
    exportClass env cid format.

(** A click on [#btn-export-all-pdf], lines 213-218. *)
Definition btnExportAllPdf_click (env : Env) : M unit :=
  if btnExportAllPdf env then exportAllClassesPdf env else ret tt.

(** [exportTeacher], lines 224-234. *)
Definition exportTeacher (env : Env) (teacherId format : string) : M unit :=
  consoleWrite LLog ["exportTeacher called"; teacherId; format] ;;
  match getElementById env ("teacher-card-" ++ teacherId) with
  | None => showStatus "Teacher card not found." "error" 3500
  | Some card =>
      let wrapper := querySelector card ".tt-teacher-card__table-wrapper" in
      let name := orElse (getAttribute card "data-teacher-name")
                         ("teacher-" ++ teacherId) in
      exportElementAs env format wrapper ("teacher-" ++ name)
  end.

(** The click listener of a per-teacher button, lines 240-246. *)
Definition teacherButton_click (env : Env) (tid format : string) : M unit :=
  if String.eqb tid "" || String.eqb format "" then ret tt
  else
    consoleWrite LLog ["Teacher button clicked"; tid; format] ;;
    exportTeacher env tid format.

(** What the [forEach] of the search filter does to one card,
    lines 262-268. *)
Definition filterCard (query : string) (card : Card) : Card :=
  let haystack :=
    toLowerCase (orElse (getAttribute card "data-teacher-search") "") in
  if String.eqb query "" || includes haystack query
  then setDisplay card ""
  else setDisplay card "none".

(** The [input] listener of the search box, lines 257-270; [value] is
    [teacherSearchInput.value]. *)
Definition teacherSearch_input (value : string) : M unit :=
  let query := toLowerCase (trim value) in
  consoleWrite LLog ["Teacher search query:"; query] ;;
  fun w =>
    (Ret tt, set_teacherCards w (map (filterCard query) (teacherCards w))).

(** The [submit] listener of the generate form, lines 38-42. *)
Definition generateForm_submit : M unit :=
  showStatus "Generating timetable… please wait." "success" 5000.

(** The [click] listener of a timetable slot, lines 45-52; [subject] is
    the text of the slot's subject element, if the slot has one. *)
Definition slot_click (subject : option string) : M unit :=
  match subject with
  | Some textContent => consoleWrite LDebug ["Clicked slot:"; trim textContent]
  | None => ret tt
  end.

End App.

(* ================================================================= *)
(** ** teachers.js *)

Module Teachers.

(** [showStatus], lines 11-27. *)
Definition showStatus (message type : string) (timeout : Z) : M unit :=
  fun w =>
    match statusEl w with
    | None => (Ret tt, w)
    | Some _ => showToast message type timeout w
    end.

(** [exportElement], lines 36-95. *)
Definition exportElement (env : Env) (format : string)
    (element : option Element) (filenameBase : string) : M unit :=
  if negb (hasHtml2Canvas env) || negb (hasJsPdf env)
  then showStatus "Export libraries not loaded (check CDN / internet)."
                  "error" 3500
  else
    match element with
    | None => showStatus "Nothing to export (element not found)." "error" 3500
    | Some element =>
        setStyle element "boxShadow" "0 0 0 2px rgba(59,130,246,0.7)" ;;
        setTimeout (ClearBoxShadow element) 250 ;;
        tryCatch
          (canvas <- callHtml2canvas env element ;;
           imgData <- canvasToDataURL canvas ;;
           let safeName := safeName filenameBase in
           if String.eqb format "png"
           then
             download (PngFile (safeName ++ ".png") imgData) ;;
             showStatus ("Downloaded " ++ safeName ++ ".png") "success" 3500
           else if String.eqb format "pdf"
           then
             let pdf := newJsPDF in
             let p := placement (pageWidth env) (pageHeight env)
                                (width canvas) (height canvas) in
             pdf <- pdfAddImage env pdf imgData p ;;
             pdfSave env pdf (safeName ++ ".pdf") ;;
             showStatus ("Downloaded " ++ safeName ++ ".pdf") "success" 3500
           else ret tt)
          (fun e =>
             consoleWrite LError [e] ;;
             showStatus "Error while exporting (see console)." "error" 3500)
    end.

(** [exportTeacher], lines 97-106. *)
Definition exportTeacher (env : Env) (teacherId format : string) : M unit :=
  match getElementById env ("teacher-card-" ++ teacherId) with
  | None => showStatus "Teacher card not found." "error" 3500
  | Some card =>
      let wrapper := querySelector card ".tt-teacher-card__table-wrapper" in
      let name := orElse (getAttribute card "data-teacher-name")
                         ("teacher-" ++ teacherId) in
      exportElement env format wrapper ("timetable-" ++ name)
  end.

(** The click listener of a per-teacher button, lines 110-114. *)
Definition teacherButton_click (env : Env) (tid format : string) : M unit :=
  exportTeacher env tid format.

(** The click listener given to [#btn-export-all-teachers-pdf],
    lines 120-166. *)
Definition btnAll_listener (env : Env) : M unit :=
  fun w =>
    let cards := teacherCards w in
    match cards with
    | [] => showStatus "No teachers to export." "error" 3500 w
    | _ :: _ =>
        (showStatus "Preparing all teacher timetables as PDF…" "success" 7000 ;;
         let pdf := newJsPDF in
         pdf <- exportCards env "data-teacher-name" "teacher"
                  ".tt-teacher-card__table-wrapper" cards pdf true ;;
         pdfSave env pdf "timetable-all-teachers.pdf" ;;
         showStatus "Downloaded timetable-all-teachers.pdf" "success" 5000) w
    end.

(** A click on the batch button: the listener exists only if it was
    registered, line 119. *)
Definition btnAll_click (env : Env) : M unit :=
  if btnAll env && hasHtml2Canvas env && hasJsPdf env
  then btnAll_listener env
  else ret tt.

(** The check made when the page has loaded, lines 29-34. *)
Definition checkExportLibs (env : Env) : M unit :=
  if negb (hasHtml2Canvas env) || negb (hasJsPdf env)
  then consoleWrite LWarn
         ["html2canvas or jsPDF not loaded; export will not work."]
  else ret tt.

End Teachers.

(* ================================================================= *)
(** ** Sample pages *)

(** A canvas of 1600 by 900 pixels, as a wrapper of 800 by 450 CSS
    pixels gives at scale 2. *)
Definition canvas1600x900 : Canvas :=
  {| width := 1600%float; height := 900%float;
     toDataURL := Ret "data:image/png;base64,iVBORw0KGgo=" |}.

(** A page with a status element and nothing else. *)
Definition pageWithToast : World :=
  {| statusEl := Some {| textContent := ""; classList := ["tt-status__toast"] |};
     teacherCards := []; styles := []; timers := []; console := [];
     downloads := []; rasterized := [] |}.

(** The same page without the status element. *)
Definition pageWithoutToast : World := set_statusEl pageWithToast None.

(** A card whose table wrapper is element [el]. *)
Definition cardWith (nameAttr name selector : string) (el : Element) : Card :=
  {| attributes := [(nameAttr, name)];
     descendants := [(selector, el)];
     display := "" |}.

(** A card that has a name but no table wrapper. *)
Definition cardWithoutWrapper (nameAttr name : string) : Card :=
  {| attributes := [(nameAttr, name)]; descendants := []; display := "" |}.

(** Both libraries loaded; element 13 cannot be rendered, every other
    element gives the 1600 by 900 canvas; jsPDF never fails. *)
Definition sampleEnv (cards : list Card) : Env :=
  {| hasHtml2Canvas := true;
     hasJsPdf := true;
     html2canvas := fun el =>
       if Nat.eqb el 13 then Throw "render failed" else Ret canvas1600x900;
     pageWidth := a4LandscapeWidth;
     pageHeight := a4LandscapeHeight;
     addImageError := fun _ => None;
     saveError := fun _ => None;
     getElementById := fun _ => None;
     classCards := cards;
     btnExportAllPdf := true;
     btnAll := true |}.


(* ================================================================= *)
(** ** What the user sees *)

(** The status element shows [message] as a visible error toast. *)
Definition errorToast (message : string) : StatusEl :=
  {| textContent := message;
     classList := ["tt-status__toast"; "tt-status__toast--visible";
                   "tt-status__toast--error"] |}.






(** Every character of [s] satisfies [p]. *)
Fixpoint allChars (p : ascii -> bool) (s : string) : bool :=
  match s with
  | EmptyString => true
  | String c r => p c && allChars p r
  end.





(** The two cards of the search example. *)
Definition smithAndJones : list Card :=
  [ {| attributes := [("data-teacher-search", "Dr. Smith — Math")];
       descendants := []; display := "" |};
    {| attributes := [("data-teacher-search", "Dr. Jones — Physics")];
       descendants := []; display := "" |} ].

(* ================================================================= *)
(** ** What a batch document should hold *)

(** The card has a capture region. *)
Definition resolves (selector : string) (card : Card) : bool :=
  match querySelector card selector with
  | Some _ => true
  | None => false
  end.

(** The display name of a card, or the fallback. *)
Definition captionOf (nameAttr fallback : string) (card : Card) : string :=
  orElse (getAttribute card nameAttr) fallback.

(** The capture region of the card, if any, is rasterized, encoded and
    embedded without an exception. *)
Definition rendersWell (env : Env) (selector : string) (card : Card) : Prop :=
  match querySelector card selector with
  | None => True
  | Some el =>
      exists canvas imgData,
        html2canvas env el = Ret canvas /\
        toDataURL canvas = Ret imgData /\
        addImageError env imgData = None
  end.

(** The rasterization of [el] throws: [html2canvas] rejects, or the
    canvas cannot be encoded. *)
Definition rasterizationThrows (env : Env) (el : Element) : Prop :=
  match html2canvas env el with
  | Throw _ => True
  | Ret canvas =>
      match toDataURL canvas with
      | Throw _ => True
      | Ret _ => False
      end
  end.

(** The snapshot scaled and centred on the page. *)
Definition placedImage (env : Env) (canvas : Canvas) (imgData : string)
    : PdfImage :=
  let p := placement (pageWidth env) (pageHeight env)
                     (width canvas) (height canvas) in
  {| imageData := imgData; atX := imgX p; atY := imgY p;
     drawnWidth := imgWidth p; drawnHeight := imgHeight p |}.

(** A caption in the light colour, at size 14, near the top left corner. *)
Definition captionText (name : string) : PdfText :=
  {| text := name; textX := 30; textY := 30;
     textColor := Some (230, 230, 230)%Z; fontSize := Some 14%Z |}.

(** The page a card contributes: none without a capture region,
    otherwise its snapshot under its caption. *)
Definition pageOfCard (env : Env) (nameAttr fallback selector : string)
    (card : Card) : list Page :=
  match querySelector card selector with
  | None => []
  | Some el =>
      match html2canvas env el with
      | Throw _ => []
      | Ret canvas =>
          match toDataURL canvas with
          | Throw _ => []
          | Ret imgData =>
              [ {| images := [placedImage env canvas imgData];
                   texts := [captionText (captionOf nameAttr fallback card)] |} ]
          end
      end
  end.

Definition captions (page : Page) : list string := map text (texts page).

(** The capture regions of the cards, in order. *)
Definition regionsOf (selector : string) (cards : list Card) : list Element :=
  flat_map (fun card =>
              match querySelector card selector with
              | Some el => [el]
              | None => []
              end) cards.

Definition add_rasterized (w : World) (els : list Element) : World :=
  {| statusEl := statusEl w; teacherCards := teacherCards w;
     styles := styles w; timers := timers w; console := console w;
     downloads := downloads w; rasterized := rasterized w ++ els |}.

(** The pages after the loop: the pages of the cards are appended, the
    first of them on the page the document already has when [first]. *)
Definition emitted (first : bool) (pdf : Pdf) (ps : list Page) : list Page :=
  match ps with
  | [] => pages pdf
  | _ :: _ => (if first then earlier pdf else pages pdf) ++ ps
  end.

(** Three class cards; the wrapper of the second cannot be rendered. *)
Definition threeClassCards : list Card :=
  [ cardWith "data-class-name" "Room A" ".tt-class-card__table-wrapper" 1;
    cardWith "data-class-name" "Room B" ".tt-class-card__table-wrapper" 13;
    cardWith "data-class-name" "Room C" ".tt-class-card__table-wrapper" 3 ].

(** Three class cards, the second without a table wrapper and the third
    without a name. *)
Definition mixedClassCards : list Card :=
  [ cardWith "data-class-name" "Room A" ".tt-class-card__table-wrapper" 1;
    cardWithoutWrapper "data-class-name" "Room B";
    cardWith "data-class-name" "" ".tt-class-card__table-wrapper" 3 ].

(** The same three as teacher cards. *)
Definition threeTeacherCards : list Card :=
  [ cardWith "data-teacher-name" "Dr. Smith" ".tt-teacher-card__table-wrapper" 1;
    cardWith "data-teacher-name" "Dr. Jones" ".tt-teacher-card__table-wrapper" 13;
    cardWith "data-teacher-name" "Dr. Wu" ".tt-teacher-card__table-wrapper" 3 ].


(* ================================================================= *)
(** ** Timers *)

(** [classList.remove(c)]. *)
Definition classList_remove (el : StatusEl) (c : string) : StatusEl :=
  {| textContent := textContent el;
     classList := filter (fun x => negb (String.eqb c x)) (classList el) |}.

Definition set_timers (w : World) (ts : list (Z * TimerTask)) : World :=
  {| statusEl := statusEl w; teacherCards := teacherCards w; styles := styles w;
     timers := ts; console := console w; downloads := downloads w;
     rasterized := rasterized w |}.

(** The callbacks given to [setTimeout]: the one of [showStatus]
    (part_000 lines 31-33, teachers.js lines 23-25) removes the visible
    class from the status element; the one of the single-card export
    (part_000 lines 82-84, teachers.js lines 48-50) clears the box
    shadow of the captured element. *)
Definition runTask (task : TimerTask) : M unit :=
  match task with
  | HideToast =>
      fun w =>
        match statusEl w with
        | Some el =>
            (Ret tt,
             set_statusEl w
               (Some (classList_remove el "tt-status__toast--visible")))
        | None => (Ret tt, w)
        end
  | ClearBoxShadow el => setStyle el "boxShadow" ""
  end.

Fixpoint removeNth {A : Type} (i : nat) (l : list A) : list A :=
  match l, i with
  | [], _ => []
  | _ :: r, O => r
  | a :: r, S j => a :: removeNth j r
  end.

(** The browser fires the [i]-th pending timer: it leaves the list of
    pending timers and its callback runs.  None of the scripts ever
    calls [clearTimeout]. *)
Definition fireTimer (i : nat) : M unit :=
  fun w =>
    match nth_error (timers w) i with
    | None => (Ret tt, w)
    | Some (_, task) => runTask task (set_timers w (removeNth i (timers w)))
    end.


(** A toast that was hidden by its timer: the text and the type class
    are still there, the visible class is gone. *)
Definition hiddenToast (message type : string) : StatusEl :=
  classList_remove (toast message type) "tt-status__toast--visible".

(** Every list of [w'] that records what happened extends the one of
    [w]: nothing logged, scheduled, styled, downloaded or rasterized is
    taken back. *)
Definition extends (w w' : World) : Prop :=
  (exists l, console w' = console w ++ l) /\
  (exists l, timers w' = timers w ++ l) /\
  (exists l, styles w' = styles w ++ l) /\
  (exists l, downloads w' = downloads w ++ l) /\
  (exists l, rasterized w' = rasterized w ++ l).



(** [m] only ever adds to what the page records. *)
Definition appendOnly {A : Type} (m : M A) : Prop :=
  forall w, extends w (snd (m w)).

(* ================================================================= *)
(** * Properties *)

(* ================================================================= *)
(** ** Page-fit placement *)

Lemma scaled_within (P c other : Q) :
  (0 < c)%Q -> (c * Qmin (P / c) other <= P)%Q.
Proof.
  intros Hc.
  assert (Hmin : (Qmin (P / c) other <= P / c)%Q) by apply Q.le_min_l.
  assert (Hmul : (c * Qmin (P / c) other <= c * (P / c))%Q).
  { apply Qmult_le_l; assumption. }
  assert (Hdiv : (c * (P / c) == P)%Q).
  { apply Qmult_div_r. intro E. rewrite E in Hc. discriminate. }
  rewrite Hdiv in Hmul. exact Hmul.
Qed.

Lemma scaled_within' (P c other : Q) :
  (0 < c)%Q -> (c * Qmin other (P / c) <= P)%Q.
Proof.
  intros Hc. rewrite Q.min_comm. apply scaled_within; assumption.
Qed.

(** C1, as amended.  In exact arithmetic, for a snapshot of positive
    width and height, the placement is [ratio = min(W/w, H/h)], the
    placed size is [(w * ratio, h * ratio)], the corner is
    [((W - w * ratio) / 2, (H - h * ratio) / 2)], the placed image lies
    within the page on both axes and the two margins of each axis are
    equal. *)
Theorem C1_placement_fits_and_centers (W H w h : Q) :
  (0 < w)%Q -> (0 < h)%Q ->
  let p := placement W H w h in
  ratio p = Qmin (W / w) (H / h) /\
  imgWidth p = (w * ratio p)%Q /\
  imgHeight p = (h * ratio p)%Q /\
  imgX p = ((W - imgWidth p) / 2)%Q /\
  imgY p = ((H - imgHeight p) / 2)%Q /\
  (0 <= imgX p)%Q /\ (imgX p + imgWidth p <= W)%Q /\
  (0 <= imgY p)%Q /\ (imgY p + imgHeight p <= H)%Q /\
  (W - (imgX p + imgWidth p) == imgX p)%Q /\
  (H - (imgY p + imgHeight p) == imgY p)%Q.
Proof.
  intros Hw Hh p.
  repeat (split; [reflexivity|]).
  pose proof (@scaled_within W w (H / h) Hw) as Bw.
  pose proof (@scaled_within' H h (W / w) Hh) as Bh.
  subst p. unfold placement.
  cbn [ratio imgWidth imgHeight imgX imgY
       num_div num_mul num_sub num_min num_two JsArith_Q].
  set (iw := (w * Qmin (W / w) (H / h))%Q) in *.
  set (ih := (h * Qmin (W / w) (H / h))%Q) in *.
  clearbody iw ih.
  repeat split; unfold Qdiv;
    setoid_replace (/ 2)%Q with (1 # 2)%Q by reflexivity; lra.
Qed.

Lemma C1_placement_fits_and_centers_witness :
  (0 < 1600)%Q /\ (0 < 900)%Q /\
  (imgX (placement (84189 # 100) (59528 # 100) 1600 900) +
   imgWidth (placement (84189 # 100) (59528 # 100) 1600 900)
   <= 84189 # 100)%Q.
Proof.
  split; [reflexivity|]. split; [reflexivity|].
  apply (@C1_placement_fits_and_centers (84189 # 100) (59528 # 100) 1600 900);
    reflexivity.
Defined.

(** C1 as stated fails in the arithmetic of the scripts.  On an A4
    landscape page (841.89 by 595.28 points) a canvas of 1600 by 900
    gives [imgWidth = 841.8900000000001], so [x] is negative and
    [x + imgWidth] exceeds the page width. *)
Lemma C1_double_rounding_exceeds_page :
  let p := placement a4LandscapeWidth a4LandscapeHeight
                     (width canvas1600x900) (height canvas1600x900) in
  PrimFloat.ltb 0 a4LandscapeWidth = true /\
  PrimFloat.ltb 0 a4LandscapeHeight = true /\
  PrimFloat.ltb 0 (width canvas1600x900) = true /\
  PrimFloat.ltb 0 (height canvas1600x900) = true /\
  ~ (PrimFloat.leb 0 (imgX p) = true /\
     PrimFloat.leb (imgX p + imgWidth p) a4LandscapeWidth = true /\
     PrimFloat.leb 0 (imgY p) = true /\
     PrimFloat.leb (imgY p + imgHeight p) a4LandscapeHeight = true).
Proof.
  cbv zeta. repeat (split; [vm_compute; reflexivity|]).
  intros [H0 _]. vm_compute in H0. discriminate H0.
Qed.

(* ================================================================= *)
(** ** Status helper *)

Ltac js_unfold :=
  unfold App.showStatus, Teachers.showStatus, showToast, bind, ret, throw,
    tryCatch, consoleWrite, setTimeout, setStyle, download, callHtml2canvas,
    canvasToDataURL, pdfAddImage, pdfSave, set_statusEl in *.




(** C9, as amended.  Without a status element the status helper returns
    normally and leaves the page alone: the one of app.js appends one
    console entry, the upper-cased type and the message; the one of
    teachers.js changes nothing at all, the console included. *)
Theorem C9_showStatus_without_surface
    (message type : string) (timeout : Z) (w : World) :
  statusEl w = None ->
  App.showStatus message type timeout w =
    (Ret tt,
     {| statusEl := None; teacherCards := teacherCards w;
        styles := styles w; timers := timers w;
        console := console w ++ [(LLog, [toUpperCase type; message])];
        downloads := downloads w; rasterized := rasterized w |}) /\
  Teachers.showStatus message type timeout w = (Ret tt, w).
Proof.
  intros E. js_unfold. rewrite E. split; reflexivity.
Qed.

Lemma C9_showStatus_without_surface_witness :
  statusEl pageWithoutToast = None /\
  console (snd (App.showStatus "No class timetables to export." "error" 3500
                  pageWithoutToast))
    = [(LLog, ["ERROR"; "No class timetables to export."])] /\
  Teachers.showStatus "No teachers to export." "error" 3500 pageWithoutToast
    = (Ret tt, pageWithoutToast).
Proof.
  destruct (@C9_showStatus_without_surface "No class timetables to export."
              "error" 3500 pageWithoutToast eq_refl) as [Ha _].
  destruct (@C9_showStatus_without_surface "No teachers to export."
              "error" 3500 pageWithoutToast eq_refl) as [_ Ht].
  split; [reflexivity|].
  split; [rewrite Ha; reflexivity | exact Ht].
Defined.

(** C9 as stated fails for teachers.js: without a status element its
    status helper does not log the message, the console stays empty. *)
Lemma C9_teachers_showStatus_logs_nothing :
  statusEl pageWithoutToast = None /\
  ~ (exists level args,
       In (level, args)
          (console (snd (Teachers.showStatus "No teachers to export."
                           "error" 3500 pageWithoutToast))) /\
       In "No teachers to export." args).
Proof.
  split; [reflexivity|]. intros (level & args & Hin & _). exact Hin.
Qed.

(* ================================================================= *)
(** ** Exports that report an error and produce nothing *)









(* ================================================================= *)
(** ** Single-card export *)

Lemma libs_present (env : Env) :
  hasHtml2Canvas env = true -> hasJsPdf env = true ->
  negb (hasHtml2Canvas env) || negb (hasJsPdf env) = false.
Proof. intros E1 E2. rewrite E1, E2. reflexivity. Qed.

Lemma App_showStatus_returns (message type : string) (timeout : Z) (w : World) :
  fst (App.showStatus message type timeout w) = Ret tt /\
  downloads (snd (App.showStatus message type timeout w)) = downloads w.
Proof.
  js_unfold. destruct (statusEl w); cbn; [|auto].
  destruct (Z.eqb timeout 0); cbn; auto.
Qed.

Lemma Teachers_showStatus_returns (message type : string) (timeout : Z)
    (w : World) :
  fst (Teachers.showStatus message type timeout w) = Ret tt /\
  downloads (snd (Teachers.showStatus message type timeout w)) = downloads w.
Proof.
  js_unfold. destruct (statusEl w); cbn; [|auto].
  destruct (Z.eqb timeout 0); cbn; auto.
Qed.

Lemma tryCatch_returns (body : M unit) (handler : Exn -> M unit) (w : World) :
  (forall e w', fst (handler e w') = Ret tt) ->
  fst (tryCatch body handler w) = Ret tt.
Proof.
  intros Hh. unfold tryCatch. destruct (body w) as [[[] | e] w']; cbn; auto.
Qed.

(** The single-card helper of app.js never throws: whatever the
    rasterizer and jsPDF do, the call returns. *)
Lemma App_exportElementAs_never_throws (env : Env) (format : string)
    (element : option Element) (filenameBase : string) (w : World) :
  fst (App.exportElementAs env format element filenameBase w) = Ret tt.
Proof.
  unfold App.exportElementAs.
  destruct (negb (hasHtml2Canvas env) || negb (hasJsPdf env));
    [apply App_showStatus_returns|].
  destruct element as [el|]; [|apply App_showStatus_returns].
  unfold bind at 1 2 3. unfold setStyle, setTimeout. cbn.
  apply tryCatch_returns. intros e w'.
  unfold bind, consoleWrite. cbn. apply App_showStatus_returns.
Qed.

(** The same for the helper of teachers.js. *)
Lemma Teachers_exportElement_never_throws (env : Env) (format : string)
    (element : option Element) (filenameBase : string) (w : World) :
  fst (Teachers.exportElement env format element filenameBase w) = Ret tt.
Proof.
  unfold Teachers.exportElement.
  destruct (negb (hasHtml2Canvas env) || negb (hasJsPdf env));
    [apply Teachers_showStatus_returns|].
  destruct element as [el|]; [|apply Teachers_showStatus_returns].
  unfold bind at 1 2. unfold setStyle, setTimeout. cbn.
  apply tryCatch_returns. intros e w'.
  unfold bind, consoleWrite. cbn. apply Teachers_showStatus_returns.
Qed.



(* ================================================================= *)
(** ** Search filter *)








Example filter_examples :
  let w := set_teacherCards pageWithToast smithAndJones in
  map display (teacherCards (snd (App.teacherSearch_input "math" w)))
    = [""; "none"] /\
  map display (teacherCards (snd (App.teacherSearch_input "" w)))
    = [""; ""] /\
  map display (teacherCards (snd (App.teacherSearch_input "zz" w)))
    = ["none"; "none"].
Proof. repeat split. Qed.

(* ================================================================= *)
(** ** File names *)









(* ================================================================= *)
(** ** Batch export: the loop *)

(** One turn of the loop on a card that renders well. *)
Lemma exportCards_step (env : Env) (nameAttr fallback selector : string)
    (card : Card) (rest : list Card) (pdf : Pdf) (first : bool) (w : World)
    (el : Element) (canvas : Canvas) (imgData : string) :
  querySelector card selector = Some el ->
  html2canvas env el = Ret canvas ->
  toDataURL canvas = Ret imgData ->
  addImageError env imgData = None ->
  exportCards env nameAttr fallback selector (card :: rest) pdf first w
  = exportCards env nameAttr fallback selector rest
      (drawText
         (setFontSize
            (setTextColor
               (drawImage (if first then pdf else addPage pdf)
                          (placedImage env canvas imgData))
               230 230 230) 14)
         (captionOf nameAttr fallback card) 30 30)
      false (add_rasterized w [el]).
Proof.
  intros Hq Hc Hd Ha. cbn [exportCards]. rewrite Hq.
  unfold bind at 1. unfold callHtml2canvas. rewrite Hc.
  unfold bind at 1. unfold canvasToDataURL. rewrite Hd.
  unfold bind at 1. unfold pdfAddImage. rewrite Ha. reflexivity.
Qed.

(** One turn of the loop on a card without a capture region. *)
Lemma exportCards_skip (env : Env) (nameAttr fallback selector : string)
    (card : Card) (rest : list Card) (pdf : Pdf) (first : bool) (w : World) :
  querySelector card selector = None ->
  exportCards env nameAttr fallback selector (card :: rest) pdf first w
  = exportCards env nameAttr fallback selector rest pdf first w.
Proof. intros Hq. cbn [exportCards]. rewrite Hq. reflexivity. Qed.

Lemma add_rasterized_nil (w : World) : add_rasterized w [] = w.
Proof. destruct w. unfold add_rasterized. cbn. rewrite app_nil_r. reflexivity. Qed.

Lemma add_rasterized_app (w : World) (a b : list Element) :
  add_rasterized (add_rasterized w a) b = add_rasterized w (a ++ b).
Proof. unfold add_rasterized. cbn. rewrite app_assoc. reflexivity. Qed.

Lemma exportCards_renders_all (env : Env) (nameAttr fallback selector : string)
    (cards : list Card) :
  Forall (rendersWell env selector) cards ->
  forall (pdf : Pdf) (first : bool) (w : World),
    (first = true -> current pdf = blankPage) ->
    exists pdf',
      exportCards env nameAttr fallback selector cards pdf first w
      = (Ret pdf', add_rasterized w (regionsOf selector cards)) /\
      pages pdf' =
        emitted first pdf
          (flat_map (pageOfCard env nameAttr fallback selector) cards).
Proof.
  induction 1 as [|card rest Hcard _ IH]; intros pdf first w Hfirst.
  - exists pdf. cbn. rewrite add_rasterized_nil. split; reflexivity.
  - unfold rendersWell in Hcard. cbn [flat_map regionsOf].
    unfold pageOfCard at 1.
    destruct (querySelector card selector) as [el|] eqn:Hq.
    + destruct Hcard as (canvas & imgData & Hc & Hd & Ha).
      rewrite (@exportCards_step env nameAttr fallback selector card rest pdf
                 first w el canvas imgData Hq Hc Hd Ha), Hc, Hd.
      match goal with
      | |- context [exportCards _ _ _ _ rest ?p false ?w0] =>
          destruct (IH p false w0) as (pdf' & Hrun & Hpages); [discriminate|]
      end.
      exists pdf'. split.
      * rewrite Hrun, add_rasterized_app. reflexivity.
      * rewrite Hpages. cbn [app emitted].
        assert (Hnow :
          pages (drawText
                   (setFontSize
                      (setTextColor
                         (drawImage (if first then pdf else addPage pdf)
                                    (placedImage env canvas imgData))
                         230 230 230) 14)
                   (captionOf nameAttr fallback card) 30 30)
          = (if first then earlier pdf else pages pdf) ++
            [{| images := [placedImage env canvas imgData];
                texts := [captionText (captionOf nameAttr fallback card)] |}]).
        { unfold pages. destruct first; cbn.
          - rewrite (Hfirst eq_refl). reflexivity.
          - reflexivity. }
        unfold emitted.
        destruct (flat_map (pageOfCard env nameAttr fallback selector) rest);
          rewrite Hnow; [reflexivity|].
        rewrite <- app_assoc. reflexivity.
    + rewrite (@exportCards_skip env nameAttr fallback selector card rest pdf
                 first w Hq).
      destruct (IH pdf first w Hfirst) as (pdf' & Hrun & Hpages).
      exists pdf'. split; assumption.
Qed.

(** The loop hands nothing to the browser and leaves the status element
    and the console alone, however it ends. *)
Lemma exportCards_quiet (env : Env) (nameAttr fallback selector : string)
    (cards : list Card) :
  forall (pdf : Pdf) (first : bool) (w : World) (r : outcome Pdf) (w' : World),
    exportCards env nameAttr fallback selector cards pdf first w = (r, w') ->
    downloads w' = downloads w /\
    statusEl w' = statusEl w /\
    console w' = console w.
Proof.
  induction cards as [|card rest IH]; intros pdf first w r w' Hrun;
    cbn [exportCards] in Hrun.
  - injection Hrun as _ <-. auto.
  - destruct (querySelector card selector) as [el|]; [|eapply IH; eassumption].
    unfold bind at 1 in Hrun. unfold callHtml2canvas in Hrun.
    destruct (html2canvas env el) as [canvas|e];
      [|injection Hrun as _ <-; cbn; auto].
    unfold bind at 1 in Hrun. unfold canvasToDataURL in Hrun.
    destruct (toDataURL canvas) as [imgData|e];
      [|injection Hrun as _ <-; cbn; auto].
    unfold bind at 1 in Hrun. unfold pdfAddImage in Hrun.
    destruct (addImageError env imgData) as [e|];
      [injection Hrun as _ <-; cbn; auto|].
    unfold ret in Hrun. apply IH in Hrun. exact Hrun.
Qed.

(** The loop throws as soon as one capture region cannot be
    rasterized. *)
Lemma exportCards_throws (env : Env) (nameAttr fallback selector : string)
    (cards : list Card) (card : Card) (el : Element) :
  In card cards ->
  querySelector card selector = Some el ->
  rasterizationThrows env el ->
  forall (pdf : Pdf) (first : bool) (w : World),
    exists e,
      fst (exportCards env nameAttr fallback selector cards pdf first w)
      = Throw e.
Proof.
  intros Hin Hq He.
  induction cards as [|card0 rest IH]; [contradiction|].
  intros pdf first w. cbn [exportCards].
  destruct Hin as [-> | Hin].
  - rewrite Hq. unfold rasterizationThrows in He.
    unfold bind at 1. unfold callHtml2canvas.
    destruct (html2canvas env el) as [canvas|e]; [|exists e; reflexivity].
    unfold bind at 1. unfold canvasToDataURL.
    destruct (toDataURL canvas) as [imgData|e]; [contradiction|].
    exists e. reflexivity.
  - destruct (querySelector card0 selector) as [el0|]; [|apply IH, Hin].
    unfold bind at 1. unfold callHtml2canvas.
    destruct (html2canvas env el0) as [canvas|e0]; [|exists e0; reflexivity].
    unfold bind at 1. unfold canvasToDataURL.
    destruct (toDataURL canvas) as [imgData|e0]; [|exists e0; reflexivity].
    unfold bind at 1. unfold pdfAddImage.
    destruct (addImageError env imgData) as [e0|]; [exists e0; reflexivity|].
    unfold ret. cbn beta iota. apply IH, Hin.
Qed.

Lemma pages_follow_cards (env : Env) (nameAttr fallback selector : string)
    (cards : list Card) :
  Forall (rendersWell env selector) cards ->
  let ps := flat_map (pageOfCard env nameAttr fallback selector) cards in
  length ps = length (filter (resolves selector) cards) /\
  map captions ps
  = map (fun card => [captionOf nameAttr fallback card])
        (filter (resolves selector) cards).
Proof.
  cbv zeta. induction 1 as [|card rest Hcard _ [IHlen IHcap]]; [split; reflexivity|].
  cbn [flat_map filter]. unfold rendersWell in Hcard.
  destruct (querySelector card selector) as [el|] eqn:Hq.
  - destruct Hcard as (canvas & imgData & Hc & Hd & _).
    assert (Hres : resolves selector card = true)
      by (unfold resolves; rewrite Hq; reflexivity).
    assert (Hp : pageOfCard env nameAttr fallback selector card
                 = [{| images := [placedImage env canvas imgData];
                       texts := [captionText (captionOf nameAttr fallback card)] |}])
      by (unfold pageOfCard; rewrite Hq, Hc, Hd; reflexivity).
    rewrite Hres, Hp. cbn. rewrite IHlen, IHcap. split; reflexivity.
  - assert (Hres : resolves selector card = false)
      by (unfold resolves; rewrite Hq; reflexivity).
    assert (Hp : pageOfCard env nameAttr fallback selector card = [])
      by (unfold pageOfCard; rewrite Hq; reflexivity).
    rewrite Hres, Hp. cbn. split; assumption.
Qed.

(* ================================================================= *)
(** ** Batch export: the two entry points *)

(** Both batch exports have the shape
    [announce; loop; save; confirm], where [announce] and [confirm] are
    calls of the status helper of the file. *)
Section BatchShape.

Variables (announce confirm : M unit).
Variables (env : Env) (nameAttr fallback selector filename : string).
Variable cards : list Card.

Hypothesis announce_returns : forall w,
  fst (announce w) = Ret tt /\ downloads (snd (announce w)) = downloads w.
Hypothesis confirm_returns : forall w,
  fst (confirm w) = Ret tt /\ downloads (snd (confirm w)) = downloads w.

Let batch : M unit :=
  announce ;;
  pdf <- exportCards env nameAttr fallback selector cards newJsPDF true ;;
  pdfSave env pdf filename ;;
  confirm.

Lemma batch_saves_pages (w : World) :
  saveError env filename = None ->
  Forall (rendersWell env selector) cards ->
  existsb (resolves selector) cards = true ->
  exists pdf,
    fst (batch w) = Ret tt /\
    downloads (snd (batch w)) = downloads w ++ [PdfFile filename pdf] /\
    pages pdf = flat_map (pageOfCard env nameAttr fallback selector) cards.
Proof.
  intros Hsave Hall Hsome. unfold batch, bind, pdfSave.
  rewrite Hsave. unfold download.
  destruct (announce_returns w) as [Hr Hd].
  destruct (announce w) as [r w1]. cbn in Hr, Hd. subst r.
  destruct (@exportCards_renders_all env nameAttr fallback selector cards
              Hall newJsPDF true w1 (fun _ => eq_refl))
    as (pdf & Hrun & Hpages).
  exists pdf. rewrite Hrun.
  match goal with
  | |- context [confirm ?w0] =>
      destruct (confirm_returns w0) as [Hr Hd']; destruct (confirm w0) as [r w2]
  end.
  cbn in Hr, Hd' |- *. subst r. rewrite Hd', Hd.
  split; [reflexivity|]. split; [reflexivity|].
  rewrite Hpages. unfold emitted.
  destruct (flat_map (pageOfCard env nameAttr fallback selector) cards)
    as [|p ps] eqn:E; [|reflexivity].
  exfalso.
  pose proof (@pages_follow_cards env nameAttr fallback selector cards Hall)
    as [Hlen _].
  rewrite E in Hlen. cbn in Hlen.
  apply existsb_exists in Hsome as (card & Hin & Hres).
  assert (Hf : In card (filter (resolves selector) cards))
    by (apply filter_In; auto).
  destruct (filter (resolves selector) cards); [contradiction | discriminate].
Qed.

Lemma batch_aborts (w : World) (card : Card) (el : Element) :
  In card cards ->
  querySelector card selector = Some el ->
  rasterizationThrows env el ->
  (exists e, fst (batch w) = Throw e) /\
  downloads (snd (batch w)) = downloads w.
Proof.
  intros Hin Hq He. unfold batch, bind.
  destruct (announce_returns w) as [Hr Hd].
  destruct (announce w) as [r w1]. cbn in Hr, Hd. subst r.
  destruct (@exportCards_throws env nameAttr fallback selector cards card el
              Hin Hq He newJsPDF true w1) as [e He'].
  destruct (exportCards env nameAttr fallback selector cards newJsPDF true w1)
    as [r w2] eqn:Hrun.
  cbn in He'. subst r. cbn.
  apply exportCards_quiet in Hrun as (Hd2 & _ & _).
  split; [exists e; reflexivity | congruence].
Qed.

End BatchShape.

(** The batch export when something can be exported.  When at least one
    card has a capture region and every capture region is rasterized,
    encoded and embedded without an exception, the batch export of
    either file returns normally and hands the browser one document
    whose pages are, in the order of the cards, one page per card with a
    capture region: the number of pages is the number of such cards, and
    page i carries as its only caption the display name (or the
    fallback) of the i-th such card.  Cards without a capture region
    give no page and are not an error. *)
Lemma batch_pages_follow_cards (env : Env) (w : World) :
  (hasHtml2Canvas env = true -> hasJsPdf env = true ->
   saveError env "timetable-all-classes.pdf" = None ->
   Forall (rendersWell env ".tt-class-card__table-wrapper") (classCards env) ->
   existsb (resolves ".tt-class-card__table-wrapper") (classCards env) = true ->
   exists pdf,
     fst (App.exportAllClassesPdf env w) = Ret tt /\
     downloads (snd (App.exportAllClassesPdf env w))
     = downloads w ++ [PdfFile "timetable-all-classes.pdf" pdf] /\
     pages pdf
     = flat_map (pageOfCard env "data-class-name" "class"
                   ".tt-class-card__table-wrapper") (classCards env) /\
     length (pages pdf)
     = length (filter (resolves ".tt-class-card__table-wrapper")
                 (classCards env)) /\
     map captions (pages pdf)
     = map (fun card => [captionOf "data-class-name" "class" card])
         (filter (resolves ".tt-class-card__table-wrapper") (classCards env)))
  /\
  (saveError env "timetable-all-teachers.pdf" = None ->
   Forall (rendersWell env ".tt-teacher-card__table-wrapper") (teacherCards w) ->
   existsb (resolves ".tt-teacher-card__table-wrapper") (teacherCards w) = true ->
   exists pdf,
     fst (Teachers.btnAll_listener env w) = Ret tt /\
     downloads (snd (Teachers.btnAll_listener env w))
     = downloads w ++ [PdfFile "timetable-all-teachers.pdf" pdf] /\
     pages pdf
     = flat_map (pageOfCard env "data-teacher-name" "teacher"
                   ".tt-teacher-card__table-wrapper") (teacherCards w) /\
     length (pages pdf)
     = length (filter (resolves ".tt-teacher-card__table-wrapper")
                 (teacherCards w)) /\
     map captions (pages pdf)
     = map (fun card => [captionOf "data-teacher-name" "teacher" card])
         (filter (resolves ".tt-teacher-card__table-wrapper") (teacherCards w))).
Proof.
  split.
  - intros L1 L2 Hsave Hall Hsome.
    destruct (@pages_follow_cards env "data-class-name" "class"
                ".tt-class-card__table-wrapper" (classCards env) Hall)
      as [Hlen Hcap].
    unfold App.exportAllClassesPdf. rewrite (libs_present env L1 L2).
    destruct (classCards env) as [|card rest] eqn:Ecards; [discriminate|].
    destruct (@batch_saves_pages
                (App.showStatus "Preparing all class timetables as PDF…"
                   "success" 7000)
                (App.showStatus "Downloaded timetable-all-classes.pdf"
                   "success" 5000)
                env "data-class-name" "class" ".tt-class-card__table-wrapper"
                "timetable-all-classes.pdf" (card :: rest)
                (App_showStatus_returns _ _ _) (App_showStatus_returns _ _ _)
                w Hsave Hall Hsome)
      as (pdf & Hret & Hfile & Hpages).
    exists pdf. rewrite Hpages. auto.
  - intros Hsave Hall Hsome.
    destruct (@pages_follow_cards env "data-teacher-name" "teacher"
                ".tt-teacher-card__table-wrapper" (teacherCards w) Hall)
      as [Hlen Hcap].
    unfold Teachers.btnAll_listener.
    destruct (teacherCards w) as [|card rest] eqn:Ecards; [discriminate|].
    destruct (@batch_saves_pages
                (Teachers.showStatus "Preparing all teacher timetables as PDF…"
                   "success" 7000)
                (Teachers.showStatus "Downloaded timetable-all-teachers.pdf"
                   "success" 5000)
                env "data-teacher-name" "teacher"
                ".tt-teacher-card__table-wrapper"
                "timetable-all-teachers.pdf" (card :: rest)
                (Teachers_showStatus_returns _ _ _)
                (Teachers_showStatus_returns _ _ _)
                w Hsave Hall Hsome)
      as (pdf & Hret & Hfile & Hpages).
    exists pdf. rewrite Hpages. auto.
Qed.

Lemma batch_pages_follow_cards_witness :
  hasHtml2Canvas (sampleEnv mixedClassCards) = true /\
  hasJsPdf (sampleEnv mixedClassCards) = true /\
  Forall (rendersWell (sampleEnv mixedClassCards) ".tt-class-card__table-wrapper")
    mixedClassCards /\
  existsb (resolves ".tt-class-card__table-wrapper") mixedClassCards = true /\
  exists pdf,
    downloads (snd (App.exportAllClassesPdf (sampleEnv mixedClassCards)
                      pageWithToast))
    = [PdfFile "timetable-all-classes.pdf" pdf] /\
    map captions (pages pdf) = [["Room A"]; ["class"]].
Proof.
  assert (Hall : Forall (rendersWell (sampleEnv mixedClassCards)
                           ".tt-class-card__table-wrapper") mixedClassCards).
  { repeat constructor; cbn;
      exists canvas1600x900, "data:image/png;base64,iVBORw0KGgo=";
      repeat split. }
  split; [reflexivity|]. split; [reflexivity|].
  split; [exact Hall|]. split; [reflexivity|].
  destruct (batch_pages_follow_cards (sampleEnv mixedClassCards) pageWithToast)
    as [Happ _].
  destruct (Happ eq_refl eq_refl eq_refl Hall eq_refl)
    as (pdf & _ & Hfile & _ & _ & Hcap).
  exists pdf. split; [exact Hfile | exact Hcap].
Defined.

(** C2 fails when the collection is not empty and no card has a capture
    region.  For one class card without a table wrapper the loop skips
    the card, yet the batch export still hands the browser a document and
    shows the success toast; that document has one page, the blank page
    a jsPDF document starts with, for zero cards with a capture region.
    The batch listener of teachers.js does the same.  An empty
    collection, in contrast, is refused with an error status. *)
Theorem C2_batch_without_regions_saves_blank_page :
  let cards := [cardWithoutWrapper "data-class-name" "Room A"] in
  let r := App.exportAllClassesPdf (sampleEnv cards) pageWithToast in
  let teachers := [cardWithoutWrapper "data-teacher-name" "Dr. Smith"] in
  let r' := Teachers.btnAll_listener (sampleEnv [])
              (set_teacherCards pageWithToast teachers) in
  length (filter (resolves ".tt-class-card__table-wrapper") cards) = 0 /\
  fst r = Ret tt /\
  downloads (snd r) = [PdfFile "timetable-all-classes.pdf" newJsPDF] /\
  pages newJsPDF = [blankPage] /\
  statusEl (snd r)
  = Some (toast "Downloaded timetable-all-classes.pdf" "success") /\
  downloads (snd r') = [PdfFile "timetable-all-teachers.pdf" newJsPDF] /\
  statusEl (snd (App.exportAllClassesPdf (sampleEnv []) pageWithToast))
  = Some (errorToast "No class timetables to export.").
Proof. cbv zeta. repeat split. Qed.

(** C3.  If some card of the collection has a capture region whose
    rasterization throws, the batch export hands no file to the browser:
    the list of downloads is what it was.  With both libraries loaded
    the loop stops at the first exception, which leaves the export; the
    document built so far is dropped with it.  This holds for the batch
    export of both files. *)
Theorem C3_batch_raster_failure_saves_nothing
    (env : Env) (w : World) (card : Card) (el : Element) :
  rasterizationThrows env el ->
  (In card (classCards env) ->
   querySelector card ".tt-class-card__table-wrapper" = Some el ->
   downloads (snd (App.exportAllClassesPdf env w)) = downloads w /\
   (hasHtml2Canvas env = true -> hasJsPdf env = true ->
    exists e, fst (App.exportAllClassesPdf env w) = Throw e)) /\
  (In card (teacherCards w) ->
   querySelector card ".tt-teacher-card__table-wrapper" = Some el ->
   downloads (snd (Teachers.btnAll_listener env w)) = downloads w /\
   exists e, fst (Teachers.btnAll_listener env w) = Throw e).
Proof.
  intros He. split; intros Hin Hq.
  - unfold App.exportAllClassesPdf.
    destruct (negb (hasHtml2Canvas env) || negb (hasJsPdf env)) eqn:L.
    + split; [apply App_showStatus_returns|].
      intros L1 L2. rewrite (libs_present env L1 L2) in L. discriminate L.
    + destruct (classCards env) as [|card0 rest] eqn:Ecards; [contradiction|].
      destruct (@batch_aborts
                  (App.showStatus "Preparing all class timetables as PDF…"
                     "success" 7000)
                  (App.showStatus "Downloaded timetable-all-classes.pdf"
                     "success" 5000)
                  env "data-class-name" "class" ".tt-class-card__table-wrapper"
                  "timetable-all-classes.pdf" (card0 :: rest)
                  (App_showStatus_returns _ _ _) w card el Hin Hq He)
        as [Hthrow Hd].
      split; [exact Hd | intros _ _; exact Hthrow].
  - unfold Teachers.btnAll_listener.
    destruct (teacherCards w) as [|card0 rest] eqn:Ecards; [contradiction|].
    destruct (@batch_aborts
                (Teachers.showStatus "Preparing all teacher timetables as PDF…"
                   "success" 7000)
                (Teachers.showStatus "Downloaded timetable-all-teachers.pdf"
                   "success" 5000)
                env "data-teacher-name" "teacher"
                ".tt-teacher-card__table-wrapper"
                "timetable-all-teachers.pdf" (card0 :: rest)
                (Teachers_showStatus_returns _ _ _) w card el Hin Hq He)
      as [Hthrow Hd].
    split; [exact Hd | exact Hthrow].
Qed.

Lemma C3_batch_raster_failure_saves_nothing_witness :
  rasterizationThrows (sampleEnv threeClassCards) 13 /\
  fst (App.exportAllClassesPdf (sampleEnv threeClassCards) pageWithToast)
  = Throw "render failed" /\
  downloads (snd (App.exportAllClassesPdf (sampleEnv threeClassCards)
                    pageWithToast)) = [] /\
  downloads (snd (Teachers.btnAll_listener (sampleEnv [])
                    (set_teacherCards pageWithToast threeTeacherCards))) = [].
Proof.
  assert (He : rasterizationThrows (sampleEnv threeClassCards) 13) by exact I.
  split; [exact He|]. split; [reflexivity|].
  destruct (@C3_batch_raster_failure_saves_nothing
              (sampleEnv threeClassCards) pageWithToast
              (cardWith "data-class-name" "Room B"
                 ".tt-class-card__table-wrapper" 13)
              13 He) as [Happ _].
  destruct (@C3_batch_raster_failure_saves_nothing
              (sampleEnv []) (set_teacherCards pageWithToast threeTeacherCards)
              (cardWith "data-teacher-name" "Dr. Jones"
                 ".tt-teacher-card__table-wrapper" 13)
              13 He) as [_ Hteachers].
  split.
  - apply Happ; [right; left; reflexivity | reflexivity].
  - apply Hteachers; [right; left; reflexivity | reflexivity].
Defined.

(** C4 fails for the batch exports, which have no [try]/[catch].  With
    three class cards of which the second cannot be rendered, the
    exception leaves [exportAllClassesPdf]: the call does not return, the
    status element still shows the "Preparing" success toast and nothing
    was logged.  The same element given to the single-card helper is
    handled as the claim says: the call returns and the error toast is
    shown.  The batch listener of teachers.js behaves like the batch
    export of app.js. *)
Theorem C4_batch_exception_leaves_the_call :
  let env := sampleEnv threeClassCards in
  fst (App.exportAllClassesPdf env pageWithToast) = Throw "render failed" /\
  statusEl (snd (App.exportAllClassesPdf env pageWithToast))
  = Some (toast "Preparing all class timetables as PDF…" "success") /\
  console (snd (App.exportAllClassesPdf env pageWithToast)) = [] /\
  downloads (snd (App.exportAllClassesPdf env pageWithToast)) = [] /\
  fst (App.exportElementAs env "pdf" (Some 13) "timetable-Room B" pageWithToast)
  = Ret tt /\
  statusEl (snd (App.exportElementAs env "pdf" (Some 13) "timetable-Room B"
                   pageWithToast))
  = Some (errorToast "Error during export (check console).") /\
  fst (Teachers.btnAll_listener env
         (set_teacherCards pageWithToast threeTeacherCards))
  = Throw "render failed" /\
  statusEl (snd (Teachers.btnAll_listener env
                   (set_teacherCards pageWithToast threeTeacherCards)))
  = Some (toast "Preparing all teacher timetables as PDF…" "success").
Proof. cbv zeta. repeat split. Qed.


(** What a successful single-card export hands to the browser: the
    encoded snapshot under the derived ".png" name, or a one-page
    document, holding the snapshot scaled and centred, under the
    derived ".pdf" name. *)
Lemma single_export_downloads (env : Env) (el : Element)
    (filenameBase : string) (canvas : Canvas) (imgData : string) (w : World) :
  hasHtml2Canvas env = true -> hasJsPdf env = true ->
  html2canvas env el = Ret canvas ->
  toDataURL canvas = Ret imgData ->
  downloads (snd (App.exportElementAs env "png" (Some el) filenameBase w))
  = downloads w ++ [PngFile (pngName filenameBase) imgData] /\
  downloads (snd (Teachers.exportElement env "png" (Some el) filenameBase w))
  = downloads w ++ [PngFile (pngName filenameBase) imgData] /\
  (addImageError env imgData = None ->
   saveError env (pdfName filenameBase) = None ->
   downloads (snd (App.exportElementAs env "pdf" (Some el) filenameBase w))
   = downloads w ++
     [PdfFile (pdfName filenameBase)
        (drawImage newJsPDF (placedImage env canvas imgData))] /\
   downloads (snd (Teachers.exportElement env "pdf" (Some el) filenameBase w))
   = downloads w ++
     [PdfFile (pdfName filenameBase)
        (drawImage newJsPDF (placedImage env canvas imgData))]).
Proof.
  intros L1 L2 Hc Hd.
  unfold App.exportElementAs, Teachers.exportElement, pngName, pdfName.
  rewrite (libs_present env L1 L2).
  unfold bind, tryCatch, setStyle, setTimeout, callHtml2canvas,
    canvasToDataURL, pdfAddImage, pdfSave, download, ret.
  cbn. rewrite Hc, Hd. cbn.
  split; [|split].
  - match goal with
    | |- context [App.showStatus ?m ?t ?o ?w0] =>
        destruct (App_showStatus_returns m t o w0) as [Hr Hdl];
        destruct (App.showStatus m t o w0) as [r w1]
    end.
    cbn in Hr, Hdl. subst r. cbn. exact Hdl.
  - match goal with
    | |- context [Teachers.showStatus ?m ?t ?o ?w0] =>
        destruct (Teachers_showStatus_returns m t o w0) as [Hr Hdl];
        destruct (Teachers.showStatus m t o w0) as [r w1]
    end.
    cbn in Hr, Hdl. subst r. cbn. exact Hdl.
  - intros Ha Hs. rewrite Ha, Hs. cbn. split.
    + match goal with
      | |- context [App.showStatus ?m ?t ?o ?w0] =>
          destruct (App_showStatus_returns m t o w0) as [Hr Hdl];
          destruct (App.showStatus m t o w0) as [r w1]
      end.
      cbn in Hr, Hdl. subst r. cbn. exact Hdl.
    + match goal with
      | |- context [Teachers.showStatus ?m ?t ?o ?w0] =>
          destruct (Teachers_showStatus_returns m t o w0) as [Hr Hdl];
          destruct (Teachers.showStatus m t o w0) as [r w1]
      end.
      cbn in Hr, Hdl. subst r. cbn. exact Hdl.
Qed.

(* ================================================================= *)
(** ** Toasts and their timers *)

Lemma nth_error_last {A : Type} (l : list A) (x : A) :
  nth_error (l ++ [x]) (length l) = Some x.
Proof. induction l; cbn; auto. Qed.

Lemma removeNth_last {A : Type} (l : list A) (x : A) :
  removeNth (length l) (l ++ [x]) = l.
Proof. induction l as [|a l IH]; cbn; [reflexivity|]. rewrite IH. reflexivity. Qed.

Lemma nth_error_before_last {A : Type} (l : list A) (x y : A) :
  nth_error ((l ++ [x]) ++ [y]) (length l) = Some x.
Proof. induction l; cbn; auto. Qed.

Lemma removeNth_before_last {A : Type} (l : list A) (x y : A) :
  removeNth (length l) ((l ++ [x]) ++ [y]) = l ++ [y].
Proof. induction l as [|a l IH]; cbn; [reflexivity|]. rewrite IH. reflexivity. Qed.

Lemma hiddenToast_not_visible (message type : string) :
  textContent (hiddenToast message type) = message /\
  ~ In "tt-status__toast--visible" (classList (hiddenToast message type)) /\
  (type = "success" ->
   In "tt-status__toast--success" (classList (hiddenToast message type))) /\
  (type = "error" ->
   In "tt-status__toast--error" (classList (hiddenToast message type))).
Proof.
  unfold hiddenToast, toast.
  destruct (String.eqb type "success") eqn:Es;
    [|destruct (String.eqb type "error") eqn:Ee]; cbn.
  - repeat split; auto.
    + intros [H | [H | []]]; discriminate H.
    + intros ->. discriminate Es.
  - repeat split; auto.
    + intros [H | [H | []]]; discriminate H.
    + intros ->. discriminate Es.
  - repeat split; auto.
    + intros [H | []]; discriminate H.
    + intros ->. discriminate Es.
    + intros ->. discriminate Ee.
Qed.

(** On a page with a status element the status helper of either file
    replaces whatever the element showed by the visible toast of the
    message and, for a timeout other than 0, schedules one timer.  When
    that timer fires the toast keeps its text and its type class and
    loses the visible class, and the pending timers are those from
    before the call.  With timeout 0 no timer is scheduled. *)
Theorem toast_is_hidden_by_its_timer
    (message type : string) (timeout : Z) (w : World) (el : StatusEl) :
  statusEl w = Some el ->
  let w1 := snd (App.showStatus message type timeout w) in
  Teachers.showStatus message type timeout w
  = App.showStatus message type timeout w /\
  statusEl w1 = Some (toast message type) /\
  In "tt-status__toast--visible" (classList (toast message type)) /\
  (timeout = 0%Z -> timers w1 = timers w) /\
  (timeout <> 0%Z ->
   timers w1 = timers w ++ [(timeout, HideToast)] /\
   let w2 := snd (fireTimer (length (timers w)) w1) in
   statusEl w2 = Some (hiddenToast message type) /\
   ~ In "tt-status__toast--visible" (classList (hiddenToast message type)) /\
   textContent (hiddenToast message type) = message /\
   timers w2 = timers w).
Proof.
  intros E. cbv zeta.
  unfold App.showStatus, Teachers.showStatus, showToast. rewrite E.
  split; [reflexivity|].
  destruct (Z.eqb_spec timeout 0) as [Hz | Hz]; cbn.
  - split; [reflexivity|]. split.
    + unfold toast.
      destruct (String.eqb type "success"); [|destruct (String.eqb type "error")];
        cbn; auto.
    + split; [reflexivity | contradiction].
  - split; [reflexivity|]. split.
    + unfold toast.
      destruct (String.eqb type "success"); [|destruct (String.eqb type "error")];
        cbn; auto.
    + split; [contradiction|]. intros _. split; [reflexivity|].
      unfold fireTimer. cbn. rewrite nth_error_last, removeNth_last. cbn.
      destruct (hiddenToast_not_visible message type) as (Ht & Hv & _).
      repeat split; assumption.
Qed.

Lemma toast_is_hidden_by_its_timer_witness :
  statusEl pageWithToast
  = Some {| textContent := ""; classList := ["tt-status__toast"] |} /\
  3500%Z <> 0%Z /\
  statusEl (snd (fireTimer 0
                   (snd (App.showStatus "Downloaded Room_A.png" "success" 3500
                           pageWithToast))))
  = Some {| textContent := "Downloaded Room_A.png";
            classList := ["tt-status__toast"; "tt-status__toast--success"] |}.
Proof.
  split; [reflexivity|]. split; [discriminate|].
  destruct (@toast_is_hidden_by_its_timer "Downloaded Room_A.png" "success"
              3500 pageWithToast _ eq_refl) as (_ & _ & _ & _ & H).
  destruct (H ltac:(discriminate)) as (_ & Hhidden & _).
  exact Hhidden.
Defined.

(** No call of the status helper cancels the timer of an earlier call.
    When two statuses are shown in a row, the timer of the first one
    hides the toast of the second one, whose own timer is then still
    pending. *)
Theorem earlier_timer_hides_later_toast
    (message1 type1 message2 type2 : string) (timeout1 timeout2 : Z)
    (w : World) (el : StatusEl) :
  statusEl w = Some el ->
  timeout1 <> 0%Z -> timeout2 <> 0%Z ->
  let w2 := snd ((App.showStatus message1 type1 timeout1 ;;
                  App.showStatus message2 type2 timeout2)%js w) in
  let w3 := snd (fireTimer (length (timers w)) w2) in
  statusEl w2 = Some (toast message2 type2) /\
  timers w2 = (timers w ++ [(timeout1, HideToast)]) ++ [(timeout2, HideToast)] /\
  statusEl w3 = Some (hiddenToast message2 type2) /\
  ~ In "tt-status__toast--visible" (classList (hiddenToast message2 type2)) /\
  timers w3 = timers w ++ [(timeout2, HideToast)].
Proof.
  intros E H1 H2. cbv zeta.
  apply Z.eqb_neq in H1, H2.
  unfold bind, App.showStatus, showToast. rewrite E. rewrite H1. cbn.
  rewrite H2. cbn.
  split; [reflexivity|]. split; [reflexivity|].
  unfold fireTimer. cbn.
  rewrite nth_error_before_last, removeNth_before_last. cbn.
  destruct (hiddenToast_not_visible message2 type2) as (_ & Hv & _).
  repeat split; assumption.
Qed.

Lemma earlier_timer_hides_later_toast_witness :
  7000%Z <> 0%Z /\ 5000%Z <> 0%Z /\
  statusEl
    (snd (fireTimer 0
            (snd ((App.showStatus "Preparing all class timetables as PDF…"
                     "success" 7000 ;;
                   App.showStatus "Downloaded timetable-all-classes.pdf"
                     "success" 5000)%js pageWithToast))))
  = Some {| textContent := "Downloaded timetable-all-classes.pdf";
            classList := ["tt-status__toast"; "tt-status__toast--success"] |}.
Proof.
  split; [discriminate|]. split; [discriminate|].
  destruct (@earlier_timer_hides_later_toast
              "Preparing all class timetables as PDF…" "success"
              "Downloaded timetable-all-classes.pdf" "success" 7000 5000
              pageWithToast _ eq_refl ltac:(discriminate) ltac:(discriminate))
    as (_ & _ & Hhidden & _).
  exact Hhidden.
Defined.

(* ================================================================= *)
(** ** Single-card export: what it always does *)









(* ================================================================= *)
(** ** Per-card dispatchers *)





(* ================================================================= *)
(** ** Batch export: what it always does *)

Lemma App_showStatus_frame (message type : string) (timeout : Z) (w : World) :
  fst (App.showStatus message type timeout w) = Ret tt /\
  downloads (snd (App.showStatus message type timeout w)) = downloads w /\
  rasterized (snd (App.showStatus message type timeout w)) = rasterized w.
Proof.
  js_unfold. destruct (statusEl w); cbn; [|auto].
  destruct (Z.eqb timeout 0); cbn; auto.
Qed.

Lemma Teachers_showStatus_frame (message type : string) (timeout : Z)
    (w : World) :
  fst (Teachers.showStatus message type timeout w) = Ret tt /\
  downloads (snd (Teachers.showStatus message type timeout w)) = downloads w /\
  rasterized (snd (Teachers.showStatus message type timeout w)) = rasterized w.
Proof.
  js_unfold. destruct (statusEl w); cbn; [|auto].
  destruct (Z.eqb timeout 0); cbn; auto.
Qed.

(** The loop rasterizes the capture regions in the order of the cards
    and stops at the first exception. *)
Lemma exportCards_rasterizes_in_order (env : Env)
    (nameAttr fallback selector : string) (cards : list Card) :
  forall (pdf : Pdf) (first : bool) (w : World) (r : outcome Pdf) (w' : World),
    exportCards env nameAttr fallback selector cards pdf first w = (r, w') ->
    exists done rest,
      regionsOf selector cards = done ++ rest /\
      rasterized w' = rasterized w ++ done /\
      (forall pdf', r = Ret pdf' -> rest = []) /\
      (forall e, r = Throw e -> done <> []).
Proof.
  induction cards as [|card cards IH]; intros pdf first w r w' Hrun;
    cbn [exportCards] in Hrun.
  - injection Hrun as <- <-. exists [], []. cbn. rewrite app_nil_r.
    repeat split; auto. discriminate.
  - cbn [regionsOf flat_map]. fold (regionsOf selector cards).
    destruct (querySelector card selector) as [el|].
    2:{ cbn [app]. eapply IH. eassumption. }
    assert (Hstop : forall e w0,
              rasterized w0 = rasterized w ++ [el] ->
              (r, w') = (Throw e, w0) ->
              exists done rest,
                [el] ++ regionsOf selector cards = done ++ rest /\
                rasterized w' = rasterized w ++ done /\
                (forall pdf', r = Ret pdf' -> rest = []) /\
                (forall e', r = Throw e' -> done <> [])).
    { intros e w0 Hw0 Heq. injection Heq as -> ->.
      exists [el], (regionsOf selector cards).
      repeat split; auto; discriminate. }
    unfold bind at 1 in Hrun. unfold callHtml2canvas in Hrun.
    destruct (html2canvas env el) as [canvas|e];
      [|eapply Hstop; [|symmetry; exact Hrun]; reflexivity].
    unfold bind at 1 in Hrun. unfold canvasToDataURL in Hrun.
    destruct (toDataURL canvas) as [imgData|e];
      [|eapply Hstop; [|symmetry; exact Hrun]; reflexivity].
    unfold bind at 1 in Hrun. unfold pdfAddImage in Hrun.
    destruct (addImageError env imgData) as [e|];
      [eapply Hstop; [|symmetry; exact Hrun]; reflexivity|].
    unfold ret in Hrun. apply IH in Hrun.
    destruct Hrun as (done & rest & Hsplit & Hras & Hret & Hthrow).
    exists (el :: done), rest. cbn in Hras |- *.
    rewrite Hsplit, Hras, <- app_assoc. repeat split; auto. discriminate.
Qed.

Section BatchOutcome.

Variables (announce confirm : M unit).
Variables (env : Env) (nameAttr fallback selector filename : string).
Variable cards : list Card.

Hypothesis announce_frame : forall w,
  fst (announce w) = Ret tt /\
  downloads (snd (announce w)) = downloads w /\
  rasterized (snd (announce w)) = rasterized w.
Hypothesis confirm_frame : forall w,
  fst (confirm w) = Ret tt /\
  downloads (snd (confirm w)) = downloads w /\
  rasterized (snd (confirm w)) = rasterized w.

Let batch : M unit :=
  announce ;;
  pdf <- exportCards env nameAttr fallback selector cards newJsPDF true ;;
  pdfSave env pdf filename ;;
  confirm.

Lemma batch_outcome (w : World) :
  exists done rest,
    regionsOf selector cards = done ++ rest /\
    rasterized (snd (batch w)) = rasterized w ++ done /\
    ((exists e, fst (batch w) = Throw e) /\
     downloads (snd (batch w)) = downloads w
     \/
     fst (batch w) = Ret tt /\ rest = [] /\
     exists pdf,
       downloads (snd (batch w)) = downloads w ++ [PdfFile filename pdf]).
Proof.
  unfold batch, bind, pdfSave, download, throw.
  destruct (announce_frame w) as (Hr & Hd & Hras).
  destruct (announce w) as [r w1]. cbn in Hr, Hd, Hras. subst r.
  destruct (exportCards env nameAttr fallback selector cards newJsPDF true w1)
    as [r w2] eqn:Hrun.
  pose proof (exportCards_quiet _ _ _ _ _ _ _ _ Hrun) as (Hd2 & _ & _).
  apply exportCards_rasterizes_in_order in Hrun
    as (done & rest & Hsplit & Hras2 & Hret & _).
  exists done, rest. split; [exact Hsplit|].
  destruct r as [pdf|e]; cbn.
  - destruct (saveError env filename) as [e|]; cbn.
    + split; [congruence|]. left. split; [eauto | congruence].
    + match goal with
      | |- context [confirm ?w0] =>
          destruct (confirm_frame w0) as (Hr & Hd3 & Hras3);
          destruct (confirm w0) as [r w3]
      end.
      cbn in Hr, Hd3, Hras3 |- *. subst r.
      split; [congruence|]. right.
      split; [reflexivity|]. split; [eauto|].
      exists pdf. congruence.
  - split; [congruence|]. left. split; [eauto | congruence].
Qed.

End BatchOutcome.

(** A batch export, whatever the page and whatever the two libraries
    do, either hands the browser nothing or returns normally having
    handed it exactly one file, a document under the fixed name of the
    collection.  If the call throws, nothing was downloaded; it never
    downloads an image and never more than one file. *)
Theorem batch_export_all_or_nothing (env : Env) (w : World) :
  (downloads (snd (App.exportAllClassesPdf env w)) = downloads w \/
   fst (App.exportAllClassesPdf env w) = Ret tt /\
   exists pdf,
     downloads (snd (App.exportAllClassesPdf env w))
     = downloads w ++ [PdfFile "timetable-all-classes.pdf" pdf]) /\
  (downloads (snd (Teachers.btnAll_listener env w)) = downloads w \/
   fst (Teachers.btnAll_listener env w) = Ret tt /\
   exists pdf,
     downloads (snd (Teachers.btnAll_listener env w))
     = downloads w ++ [PdfFile "timetable-all-teachers.pdf" pdf]).
Proof.
  split.
  - unfold App.exportAllClassesPdf.
    destruct (negb (hasHtml2Canvas env) || negb (hasJsPdf env));
      [left; apply App_showStatus_returns|].
    destruct (classCards env) as [|card rest];
      [left; apply App_showStatus_returns|].
    destruct (@batch_outcome
                (App.showStatus "Preparing all class timetables as PDF…"
                   "success" 7000)
                (App.showStatus "Downloaded timetable-all-classes.pdf"
                   "success" 5000)
                env "data-class-name" "class" ".tt-class-card__table-wrapper"
                "timetable-all-classes.pdf" (card :: rest)
                (App_showStatus_frame _ _ _) (App_showStatus_frame _ _ _) w)
      as (done & rest' & _ & _ & [[_ Hd] | (Hr & _ & Hfile)]).
    + left. exact Hd.
    + right. split; assumption.
  - unfold Teachers.btnAll_listener.
    destruct (teacherCards w) as [|card rest] eqn:Ecards;
      [left; apply Teachers_showStatus_returns|].
    destruct (@batch_outcome
                (Teachers.showStatus "Preparing all teacher timetables as PDF…"
                   "success" 7000)
                (Teachers.showStatus "Downloaded timetable-all-teachers.pdf"
                   "success" 5000)
                env "data-teacher-name" "teacher"
                ".tt-teacher-card__table-wrapper"
                "timetable-all-teachers.pdf" (card :: rest)
                (Teachers_showStatus_frame _ _ _)
                (Teachers_showStatus_frame _ _ _) w)
      as (done & rest' & _ & _ & [[_ Hd] | (Hr & _ & Hfile)]).
    + left. exact Hd.
    + right. split; assumption.
Qed.


(* ================================================================= *)
(** ** Search filter: queries *)



Lemma is_space_lower (c : ascii) : is_space (lower_ascii c) = is_space c.
Proof. destruct c as [[] [] [] [] [] [] [] []]; reflexivity. Qed.

Lemma is_space_upper (c : ascii) : is_space (upper_ascii c) = is_space c.
Proof. destruct c as [[] [] [] [] [] [] [] []]; reflexivity. Qed.

Lemma lower_upper (c : ascii) : lower_ascii (upper_ascii c) = lower_ascii c.
Proof. destruct c as [[] [] [] [] [] [] [] []]; reflexivity. Qed.

Lemma toLowerCase_toUpperCase (s : string) :
  toLowerCase (toUpperCase s) = toLowerCase s.
Proof.
  unfold toLowerCase, toUpperCase.
  induction s as [|c s IH]; cbn; [reflexivity|].
  rewrite lower_upper, IH. reflexivity.
Qed.

Lemma trimStart_map (f : ascii -> ascii) (s : string) :
  (forall c, is_space (f c) = is_space c) ->
  trimStart (map_string f s) = map_string f (trimStart s).
Proof.
  intros Hf. induction s as [|c s IH]; cbn; [reflexivity|].
  rewrite Hf. destruct (is_space c); [exact IH | reflexivity].
Qed.

Lemma trimEnd_map (f : ascii -> ascii) (s : string) :
  (forall c, is_space (f c) = is_space c) ->
  trimEnd (map_string f s) = map_string f (trimEnd s).
Proof.
  intros Hf. induction s as [|c s IH]; cbn; [reflexivity|].
  rewrite IH, Hf. destruct (trimEnd s); cbn; [|reflexivity].
  destruct (is_space c); reflexivity.
Qed.

Lemma trim_map (f : ascii -> ascii) (s : string) :
  (forall c, is_space (f c) = is_space c) ->
  trim (map_string f s) = map_string f (trim s).
Proof.
  intros Hf. unfold trim. rewrite trimStart_map, trimEnd_map; auto.
Qed.

Lemma trimStart_blanks (ws s : string) :
  allChars is_space ws = true -> trimStart (ws ++ s) = trimStart s.
Proof.
  induction ws as [|c ws IH]; cbn; [reflexivity|].
  intros H. apply andb_true_iff in H as [Hc Hws]. rewrite Hc. auto.
Qed.

Lemma trimEnd_blanks_only (ws : string) :
  allChars is_space ws = true -> trimEnd ws = "".
Proof.
  induction ws as [|c ws IH]; cbn; [reflexivity|].
  intros H. apply andb_true_iff in H as [Hc Hws]. rewrite IH, Hc; auto.
Qed.

Lemma trimEnd_blanks (s ws : string) :
  allChars is_space ws = true -> trimEnd (s ++ ws) = trimEnd s.
Proof.
  intros Hws. induction s as [|c s IH]; cbn.
  - apply trimEnd_blanks_only, Hws.
  - rewrite IH. reflexivity.
Qed.

Lemma trimStart_app (s t : string) :
  trimStart (s ++ t)
  = if allChars is_space s then trimStart t else (trimStart s ++ t)%string.
Proof.
  induction s as [|c s IH]; cbn; [reflexivity|].
  destruct (is_space c); cbn; [exact IH | reflexivity].
Qed.

Lemma trimStart_blanks_only (ws : string) :
  allChars is_space ws = true -> trimStart ws = "".
Proof.
  induction ws as [|c ws IH]; cbn; [reflexivity|].
  intros H. apply andb_true_iff in H as [Hc Hws]. rewrite Hc. auto.
Qed.

Lemma trim_blanks_around (ws1 s ws2 : string) :
  allChars is_space ws1 = true -> allChars is_space ws2 = true ->
  trim (ws1 ++ s ++ ws2) = trim s.
Proof.
  intros H1 H2. unfold trim. rewrite trimStart_blanks by assumption.
  rewrite trimStart_app.
  destruct (allChars is_space s) eqn:Es.
  - rewrite (trimStart_blanks_only _ H2), (trimStart_blanks_only _ Es).
    reflexivity.
  - apply trimEnd_blanks. assumption.
Qed.

(** The search does not depend on the case of the query nor on blanks
    around it: a query written in upper case and padded with white
    space on both sides leaves the cards as the bare query does.  In
    particular a query made of white space only shows every card. *)
Theorem search_ignores_case_and_padding
    (value blanks1 blanks2 : string) (w : World) :
  allChars is_space blanks1 = true ->
  allChars is_space blanks2 = true ->
  App.teacherSearch_input (blanks1 ++ toUpperCase value ++ blanks2) w
  = App.teacherSearch_input value w /\
  Forall (fun card => display card = "")
    (teacherCards (snd (App.teacherSearch_input (blanks1 ++ blanks2) w))).
Proof.
  intros H1 H2.
  assert (Hq : toLowerCase (trim (blanks1 ++ toUpperCase value ++ blanks2))
               = toLowerCase (trim value)).
  { rewrite trim_blanks_around by assumption.
    unfold toUpperCase at 1. rewrite trim_map by apply is_space_upper.
    fold (toUpperCase (trim value)). apply toLowerCase_toUpperCase. }
  split.
  - unfold App.teacherSearch_input. rewrite Hq. reflexivity.
  - assert (Hb : toLowerCase (trim (blanks1 ++ blanks2)) = "").
    { change (blanks1 ++ blanks2)%string with (blanks1 ++ "" ++ blanks2)%string.
      rewrite trim_blanks_around by assumption. reflexivity. }
    unfold App.teacherSearch_input, bind, consoleWrite. cbn. rewrite Hb.
    induction (teacherCards w) as [|card cards IH]; cbn; constructor.
    + reflexivity.
    + exact IH.
Qed.

Lemma search_ignores_case_and_padding_witness :
  allChars is_space "  " = true /\
  allChars is_space " " = true /\
  map display
    (teacherCards
       (snd (App.teacherSearch_input "  MATH "
               (set_teacherCards pageWithToast smithAndJones))))
  = [""; "none"].
Proof.
  split; [reflexivity|]. split; [reflexivity|].
  destruct (@search_ignores_case_and_padding "math" "  " " "
              (set_teacherCards pageWithToast smithAndJones)
              eq_refl eq_refl) as [Hsame _].
  change ("  MATH ") with ("  " ++ toUpperCase "math" ++ " ")%string.
  rewrite Hsame. reflexivity.
Defined.

(** The filter decides from the attributes of a card alone, not from
    what an earlier query made of it: after two input events the cards
    are as after the second one alone, so emptying the search box shows
    every card again.  An input event touches nothing but the display
    of the teacher cards and the console. *)
Theorem search_last_query_wins (value1 value2 : string) (w : World) :
  let w1 := snd (App.teacherSearch_input value1 w) in
  teacherCards (snd (App.teacherSearch_input value2 w1))
  = teacherCards (snd (App.teacherSearch_input value2 w)) /\
  teacherCards (snd (App.teacherSearch_input "" w1))
  = map (fun card => setDisplay card "") (teacherCards w) /\
  statusEl w1 = statusEl w /\ timers w1 = timers w /\ styles w1 = styles w /\
  downloads w1 = downloads w /\ rasterized w1 = rasterized w.
Proof.
  cbv zeta. unfold App.teacherSearch_input, bind, consoleWrite. cbn.
  assert (Hagain : forall q1 q2 card,
            App.filterCard q2 (App.filterCard q1 card) = App.filterCard q2 card).
  { intros q1 q2 card. unfold App.filterCard at 2.
    destruct (String.eqb q1 "" || includes _ q1); reflexivity. }
  split; [|split; [|repeat split]].
  - rewrite map_map. apply map_ext. intros card. apply Hagain.
  - rewrite map_map. apply map_ext. intros card.
    rewrite (Hagain _ "" card). reflexivity.
Qed.



(* ================================================================= *)
(** ** File names: collisions *)





(* ================================================================= *)
(** ** Page-fit placement: shape *)

Lemma Qmin_cases (a b : Q) :
  (Qmin a b == a /\ a <= b)%Q \/ (Qmin a b == b /\ b <= a)%Q.
Proof.
  destruct (Q.min_spec a b) as [[Hlt Heq] | [Hle Heq]].
  - left. split; [exact Heq | apply Qlt_le_weak, Hlt].
  - right. split; [exact Heq | exact Hle].
Qed.

Lemma Qone_le_div (P c : Q) :
  (0 < c)%Q -> (1 <= P / c <-> c <= P)%Q.
Proof.
  intros Hc.
  assert (Hne : ~ (c == 0)%Q) by (intro E; rewrite E in Hc; discriminate).
  rewrite <- (Qmult_le_l 1 (P / c) c Hc).
  rewrite (Qmult_div_r P c Hne), Qmult_1_r. reflexivity.
Qed.

Lemma Qmin_div (a b k : Q) :
  (0 < k)%Q -> (Qmin (a / k) (b / k) == Qmin a b / k)%Q.
Proof.
  intros Hk.
  assert (Hinv : (0 <= / k)%Q) by (apply Qinv_le_0_compat, Qlt_le_weak, Hk).
  destruct (Qmin_cases a b) as [[Heq Hle] | [Heq Hle]]; rewrite Heq.
  - apply Q.min_l. unfold Qdiv. apply Qmult_le_compat_r; assumption.
  - apply Q.min_r. unfold Qdiv. apply Qmult_le_compat_r; assumption.
Qed.

(** In exact arithmetic the placement keeps the aspect ratio of the
    snapshot and makes the image as large as the page allows: the
    placed image spans the full width or the full height of the page. *)
Theorem placement_keeps_aspect_and_touches_page (W H w h : Q) :
  (0 < w)%Q -> (0 < h)%Q ->
  let p := placement W H w h in
  (imgWidth p * h == imgHeight p * w)%Q /\
  ((imgWidth p == W /\ imgX p == 0)%Q \/ (imgHeight p == H /\ imgY p == 0)%Q).
Proof.
  intros Hw Hh p. subst p. unfold placement.
  cbn [ratio imgWidth imgHeight imgX imgY
       num_div num_mul num_sub num_min num_two JsArith_Q].
  assert (Hwne : ~ (w == 0)%Q) by (intro E; rewrite E in Hw; discriminate).
  assert (Hhne : ~ (h == 0)%Q) by (intro E; rewrite E in Hh; discriminate).
  split; [ring|].
  destruct (Qmin_cases (W / w) (H / h)) as [[Heq _] | [Heq _]]; rewrite Heq.
  - left. rewrite (Qmult_div_r W w Hwne). split; [reflexivity|].
    unfold Qdiv. ring.
  - right. rewrite (Qmult_div_r H h Hhne). split; [reflexivity|].
    unfold Qdiv. ring.
Qed.

Lemma placement_keeps_aspect_and_touches_page_witness :
  (0 < 1600)%Q /\ (0 < 900)%Q /\
  (imgWidth (placement (84189 # 100) (59528 # 100) 1600 900) * 900
   == imgHeight (placement (84189 # 100) (59528 # 100) 1600 900) * 1600)%Q.
Proof.
  split; [reflexivity|]. split; [reflexivity|].
  apply (@placement_keeps_aspect_and_touches_page
           (84189 # 100) (59528 # 100) 1600 900); reflexivity.
Defined.

(** In exact arithmetic the scale factor is at least 1 exactly when the
    snapshot is no larger than the page in both dimensions: a snapshot
    smaller than the page is enlarged to fit, the factor is not capped
    at 1. *)
Theorem placement_enlarges_small_snapshots (W H w h : Q) :
  (0 < w)%Q -> (0 < h)%Q ->
  (1 <= ratio (placement W H w h) <-> w <= W /\ h <= H)%Q.
Proof.
  intros Hw Hh. unfold placement.
  cbn [ratio num_div num_min JsArith_Q].
  rewrite Q.min_glb_iff, (Qone_le_div W Hw), (Qone_le_div H Hh). reflexivity.
Qed.

Lemma placement_enlarges_small_snapshots_witness :
  (0 < 400)%Q /\ (0 < 300)%Q /\
  (1 <= ratio (placement (84189 # 100) (59528 # 100) 400 300))%Q.
Proof.
  split; [reflexivity|]. split; [reflexivity|].
  apply (@placement_enlarges_small_snapshots
           (84189 # 100) (59528 # 100) 400 300); try reflexivity.
  split; discriminate.
Defined.

(** In exact arithmetic the placement does not depend on the resolution
    of the snapshot: a canvas [k] times as wide and as high (the scale
    option of the rasterizer) is placed at the same position with the
    same size; only the scale factor is divided by [k]. *)
Theorem placement_ignores_canvas_scale (W H w h k : Q) :
  (0 < w)%Q -> (0 < h)%Q -> (0 < k)%Q ->
  let p := placement W H w h in
  let p' := placement W H (k * w)%Q (k * h)%Q in
  (ratio p' == ratio p / k)%Q /\
  (imgWidth p' == imgWidth p)%Q /\ (imgHeight p' == imgHeight p)%Q /\
  (imgX p' == imgX p)%Q /\ (imgY p' == imgY p)%Q.
Proof.
  intros Hw Hh Hk p p'. subst p p'. unfold placement.
  cbn [ratio imgWidth imgHeight imgX imgY
       num_div num_mul num_sub num_min num_two JsArith_Q].
  assert (Hwne : ~ (w == 0)%Q) by (intro E; rewrite E in Hw; discriminate).
  assert (Hhne : ~ (h == 0)%Q) by (intro E; rewrite E in Hh; discriminate).
  assert (Hkne : ~ (k == 0)%Q) by (intro E; rewrite E in Hk; discriminate).
  assert (Hr : (Qmin (W / (k * w)) (H / (k * h)) == Qmin (W / w) (H / h) / k)%Q).
  { rewrite <- (Qmin_div (W / w) (H / h) Hk).
    assert (E1 : (W / (k * w) == W / w / k)%Q) by (field; split; assumption).
    assert (E2 : (H / (k * h) == H / h / k)%Q) by (field; split; assumption).
    rewrite E1, E2. reflexivity. }
  rewrite Hr.
  set (r := Qmin (W / w) (H / h)).
  assert (Ew : (k * w * (r / k) == w * r)%Q) by (field; assumption).
  assert (Eh : (k * h * (r / k) == h * r)%Q) by (field; assumption).
  rewrite Ew, Eh. repeat split; reflexivity.
Qed.

Lemma placement_ignores_canvas_scale_witness :
  (0 < 800)%Q /\ (0 < 450)%Q /\ (0 < 2)%Q /\
  (imgWidth (placement (84189 # 100) (59528 # 100) (2 * 800) (2 * 450)%Q)
   == imgWidth (placement (84189 # 100) (59528 # 100) 800 450))%Q.
Proof.
  split; [reflexivity|]. split; [reflexivity|]. split; [reflexivity|].
  apply (@placement_ignores_canvas_scale
           (84189 # 100) (59528 # 100) 800 450 2); reflexivity.
Defined.

(* ================================================================= *)
(** ** What no routine does *)

Lemma extends_refl (w : World) : extends w w.
Proof. repeat split; exists []; rewrite app_nil_r; reflexivity. Qed.

Lemma extends_trans (w1 w2 w3 : World) :
  extends w1 w2 -> extends w2 w3 -> extends w1 w3.
Proof.
  intros ([c1 Hc1] & [t1 Ht1] & [s1 Hs1] & [d1 Hd1] & [r1 Hr1])
         ([c2 Hc2] & [t2 Ht2] & [s2 Hs2] & [d2 Hd2] & [r2 Hr2]).
  repeat split.
  - exists (c1 ++ c2). rewrite Hc2, Hc1, app_assoc. reflexivity.
  - exists (t1 ++ t2). rewrite Ht2, Ht1, app_assoc. reflexivity.
  - exists (s1 ++ s2). rewrite Hs2, Hs1, app_assoc. reflexivity.
  - exists (d1 ++ d2). rewrite Hd2, Hd1, app_assoc. reflexivity.
  - exists (r1 ++ r2). rewrite Hr2, Hr1, app_assoc. reflexivity.
Qed.

Ltac extends_step :=
  intros ?w; unfold extends; cbn;
  repeat split;
  first [ exists []; rewrite app_nil_r; reflexivity | eexists; reflexivity ].

Lemma appendOnly_ret {A : Type} (a : A) : appendOnly (ret a).
Proof. extends_step. Qed.

Lemma appendOnly_throw {A : Type} (e : Exn) : appendOnly (@throw A e).
Proof. extends_step. Qed.

Lemma appendOnly_bind {A B : Type} (m : M A) (k : A -> M B) :
  appendOnly m -> (forall a, appendOnly (k a)) -> appendOnly (bind m k).
Proof.
  intros Hm Hk w. unfold bind. specialize (Hm w).
  destruct (m w) as [[a | e] w1]; cbn in Hm |- *; [|exact Hm].
  eapply extends_trans; [exact Hm | apply Hk].
Qed.

Lemma appendOnly_tryCatch {A : Type} (body : M A) (handler : Exn -> M A) :
  appendOnly body -> (forall e, appendOnly (handler e)) ->
  appendOnly (tryCatch body handler).
Proof.
  intros Hb Hh w. unfold tryCatch. specialize (Hb w).
  destruct (body w) as [[a | e] w1]; cbn in Hb |- *; [exact Hb|].
  eapply extends_trans; [exact Hb | apply Hh].
Qed.

Lemma appendOnly_consoleWrite (level : Level) (args : list string) :
  appendOnly (consoleWrite level args).
Proof. extends_step. Qed.

Lemma appendOnly_setTimeout (task : TimerTask) (delay : Z) :
  appendOnly (setTimeout task delay).
Proof. extends_step. Qed.

Lemma appendOnly_setStyle (el : Element) (property value : string) :
  appendOnly (setStyle el property value).
Proof. extends_step. Qed.

Lemma appendOnly_download (f : File) : appendOnly (download f).
Proof. extends_step. Qed.

Lemma appendOnly_callHtml2canvas (env : Env) (el : Element) :
  appendOnly (callHtml2canvas env el).
Proof. extends_step. Qed.

Lemma appendOnly_canvasToDataURL (canvas : Canvas) :
  appendOnly (canvasToDataURL canvas).
Proof. extends_step. Qed.

Lemma appendOnly_pdfAddImage (env : Env) (pdf : Pdf) (imgData : string)
    (p : Placement float) :
  appendOnly (pdfAddImage env pdf imgData p).
Proof.
  unfold pdfAddImage. destruct (addImageError env imgData);
    [apply appendOnly_throw | apply appendOnly_ret].
Qed.

Lemma appendOnly_pdfSave (env : Env) (pdf : Pdf) (name : string) :
  appendOnly (pdfSave env pdf name).
Proof.
  unfold pdfSave. destruct (saveError env name);
    [apply appendOnly_throw | apply appendOnly_download].
Qed.

Lemma appendOnly_showToast (message type : string) (timeout : Z) :
  appendOnly (showToast message type timeout).
Proof.
  intros w. unfold showToast. destruct (Z.eqb timeout 0); revert w; extends_step.
Qed.

Lemma appendOnly_App_showStatus (message type : string) (timeout : Z) :
  appendOnly (App.showStatus message type timeout).
Proof.
  intros w. unfold App.showStatus. destruct (statusEl w).
  - apply appendOnly_showToast.
  - apply appendOnly_consoleWrite.
Qed.

Lemma appendOnly_Teachers_showStatus (message type : string) (timeout : Z) :
  appendOnly (Teachers.showStatus message type timeout).
Proof.
  intros w. unfold Teachers.showStatus. destruct (statusEl w).
  - apply appendOnly_showToast.
  - apply extends_refl.
Qed.

Create HintDb append_only.

#[local] Hint Resolve appendOnly_ret appendOnly_throw appendOnly_consoleWrite
  appendOnly_setTimeout appendOnly_setStyle appendOnly_download
  appendOnly_callHtml2canvas appendOnly_canvasToDataURL appendOnly_pdfAddImage
  appendOnly_pdfSave appendOnly_App_showStatus appendOnly_Teachers_showStatus
  : append_only.

Ltac append_only :=
  repeat first
    [ apply appendOnly_bind; [|intros ?a]
    | apply appendOnly_tryCatch; [|intros ?e]
    | solve [auto with append_only]
    | match goal with
      | |- appendOnly (if ?b then _ else _) => destruct b
      | |- appendOnly (match ?o with Some _ => _ | None => _ end) => destruct o
      | |- appendOnly (match ?l with [] => _ | _ :: _ => _ end) => destruct l
      end ].

Lemma appendOnly_exportCards (env : Env) (nameAttr fallback selector : string)
    (cards : list Card) :
  forall (pdf : Pdf) (first : bool),
    appendOnly (exportCards env nameAttr fallback selector cards pdf first).
Proof.
  induction cards as [|card cards IH]; intros pdf first; cbn [exportCards].
  - apply appendOnly_ret.
  - destruct (querySelector card selector); [|apply IH].
    append_only.
Qed.

Lemma appendOnly_App_exportElementAs (env : Env) (format : string)
    (element : option Element) (filenameBase : string) :
  appendOnly (App.exportElementAs env format element filenameBase).
Proof. unfold App.exportElementAs. append_only. Qed.

Lemma appendOnly_Teachers_exportElement (env : Env) (format : string)
    (element : option Element) (filenameBase : string) :
  appendOnly (Teachers.exportElement env format element filenameBase).
Proof. unfold Teachers.exportElement. append_only. Qed.

#[local] Hint Resolve appendOnly_App_exportElementAs
  appendOnly_Teachers_exportElement appendOnly_exportCards : append_only.

(** No routine of either script takes anything back: whatever a
    listener does, and however it ends, the console entries, the
    pending timers, the style assignments, the files handed to the
    browser and the rasterizer calls recorded before it are all still
    there, in order, after it.  In particular no pending timer is ever
    cancelled. *)
Theorem listeners_take_nothing_back (env : Env) :
  appendOnly App.generateForm_submit /\
  (forall subject, appendOnly (App.slot_click subject)) /\
  appendOnly (App.checkExportLibs env) /\
  (forall format cid, appendOnly (App.classButton_click env format cid)) /\
  (forall tid format, appendOnly (App.teacherButton_click env tid format)) /\
  appendOnly (App.btnExportAllPdf_click env) /\
  (forall value, appendOnly (App.teacherSearch_input value)) /\
  appendOnly (Teachers.checkExportLibs env) /\
  (forall tid format, appendOnly (Teachers.teacherButton_click env tid format)) /\
  appendOnly (Teachers.btnAll_click env).
Proof.
  repeat match goal with |- _ /\ _ => split end; intros.
  - unfold App.generateForm_submit. append_only.
  - unfold App.slot_click. append_only.
  - unfold App.checkExportLibs. append_only.
  - unfold App.classButton_click, App.exportClass. append_only.
  - unfold App.teacherButton_click, App.exportTeacher. append_only.
  - unfold App.btnExportAllPdf_click, App.exportAllClassesPdf. append_only.
  - unfold App.teacherSearch_input. append_only. extends_step.
  - unfold Teachers.checkExportLibs. append_only.
  - unfold Teachers.teacherButton_click, Teachers.exportTeacher. append_only.
  - unfold Teachers.btnAll_click. append_only.
    intros w. unfold Teachers.btnAll_listener.
    destruct (teacherCards w) as [|card rest].
    + apply appendOnly_Teachers_showStatus.
    + revert w. append_only.
Qed.

(** No per-card export and no other listener except the batch export
    ever throws: whatever the page looks like and whatever html2canvas
    and jsPDF do, the per-class and per-teacher dispatchers and click
    listeners of both files, the form and slot listeners, the search
    filter and the library checks return normally. *)
Theorem listeners_other_than_batch_never_throw (env : Env) (w : World) :
  (forall id format, fst (App.exportClass env id format w) = Ret tt) /\
  (forall id format, fst (App.exportTeacher env id format w) = Ret tt) /\
  (forall format cid, fst (App.classButton_click env format cid w) = Ret tt) /\
  (forall tid format, fst (App.teacherButton_click env tid format w) = Ret tt) /\
  (forall id format, fst (Teachers.exportTeacher env id format w) = Ret tt) /\
  (forall tid format,
     fst (Teachers.teacherButton_click env tid format w) = Ret tt) /\
  fst (App.generateForm_submit w) = Ret tt /\
  (forall subject, fst (App.slot_click subject w) = Ret tt) /\
  (forall value, fst (App.teacherSearch_input value w) = Ret tt) /\
  fst (App.checkExportLibs env w) = Ret tt /\
  fst (Teachers.checkExportLibs env w) = Ret tt.
Proof.
  assert (Hclass : forall w0 id format,
            fst (App.exportClass env id format w0) = Ret tt).
  { intros w0 id format. unfold App.exportClass, bind, consoleWrite.
    cbv beta iota. destruct (getElementById env _).
    - apply App_exportElementAs_never_throws.
    - apply App_showStatus_returns. }
  assert (Hteacher : forall w0 id format,
            fst (App.exportTeacher env id format w0) = Ret tt).
  { intros w0 id format. unfold App.exportTeacher, bind, consoleWrite.
    cbv beta iota. destruct (getElementById env _).
    - apply App_exportElementAs_never_throws.
    - apply App_showStatus_returns. }
  assert (Hteacher' : forall id format,
            fst (Teachers.exportTeacher env id format w) = Ret tt).
  { intros id format. unfold Teachers.exportTeacher.
    destruct (getElementById env _).
    - apply Teachers_exportElement_never_throws.
    - apply Teachers_showStatus_returns. }
  repeat match goal with |- _ /\ _ => split end.
  - apply Hclass.
  - apply Hteacher.
  - intros format cid. unfold App.classButton_click.
    destruct (String.eqb cid "" || String.eqb format ""); [reflexivity|].
    unfold bind, consoleWrite. cbv beta iota. apply Hclass.
  - intros tid format. unfold App.teacherButton_click.
    destruct (String.eqb tid "" || String.eqb format ""); [reflexivity|].
    unfold bind, consoleWrite. cbv beta iota. apply Hteacher.
  - apply Hteacher'.
  - intros tid format. apply Hteacher'.
  - apply App_showStatus_returns.
  - intros [text|]; reflexivity.
  - intros value. reflexivity.
  - unfold App.checkExportLibs.
    destruct (negb (hasHtml2Canvas env) || negb (hasJsPdf env));
      [apply App_showStatus_returns | reflexivity].
  - unfold Teachers.checkExportLibs.
    destruct (negb (hasHtml2Canvas env) || negb (hasJsPdf env)); reflexivity.
Qed.


(** The document of a successful single-card export in the format "pdf"
    has one page, and that page holds the snapshot, scaled and centred
    by the page-fit placement, and nothing else: unlike the pages of a
    batch export it carries no caption. *)
Theorem single_pdf_is_one_uncaptioned_page (env : Env) (el : Element)
    (filenameBase : string) (canvas : Canvas) (imgData : string) (w : World) :
  hasHtml2Canvas env = true -> hasJsPdf env = true ->
  html2canvas env el = Ret canvas ->
  toDataURL canvas = Ret imgData ->
  addImageError env imgData = None ->
  saveError env (pdfName filenameBase) = None ->
  exists doc,
    downloads (snd (App.exportElementAs env "pdf" (Some el) filenameBase w))
    = downloads w ++ [PdfFile (pdfName filenameBase) doc] /\
    downloads (snd (Teachers.exportElement env "pdf" (Some el) filenameBase w))
    = downloads w ++ [PdfFile (pdfName filenameBase) doc] /\
    pages doc
    = [{| images := [placedImage env canvas imgData]; texts := [] |}] /\
    drawnWidth (placedImage env canvas imgData)
    = imgWidth (placement (pageWidth env) (pageHeight env)
                  (width canvas) (height canvas)) /\
    atX (placedImage env canvas imgData)
    = imgX (placement (pageWidth env) (pageHeight env)
              (width canvas) (height canvas)).
Proof.
  intros L1 L2 Hc Hd Ha Hs.
  destruct (@single_export_downloads env el filenameBase canvas imgData w
              L1 L2 Hc Hd) as (_ & _ & Hpdf).
  destruct (Hpdf Ha Hs) as [Happ Hteachers].
  exists (drawImage newJsPDF (placedImage env canvas imgData)).
  repeat split; assumption.
Qed.

Lemma single_pdf_is_one_uncaptioned_page_witness :
  html2canvas (sampleEnv []) 1 = Ret canvas1600x900 /\
  exists doc,
    downloads (snd (App.exportElementAs (sampleEnv []) "pdf" (Some 1)
                      "timetable-Room A" pageWithToast))
    = [PdfFile "timetable-Room_A.pdf" doc] /\
    map captions (pages doc) = [[]].
Proof.
  split; [reflexivity|].
  destruct (@single_pdf_is_one_uncaptioned_page (sampleEnv []) 1
              "timetable-Room A" canvas1600x900
              "data:image/png;base64,iVBORw0KGgo=" pageWithToast
              eq_refl eq_refl eq_refl eq_refl eq_refl eq_refl)
    as (doc & Happ & _ & Hpages & _).
  exists doc. split; [exact Happ|]. rewrite Hpages. reflexivity.
Defined.

(* ================================================================= *)
(** ** What a successful export tells the user *)

(** On a page with a status element, a single-card export that succeeds
    ends with the success toast "Downloaded " followed by the name of
    the file, in both files and for both formats, and logs nothing. *)
Theorem single_export_success_is_announced (env : Env) (el : Element)
    (filenameBase : string) (canvas : Canvas) (imgData : string)
    (w : World) (status : StatusEl) :
  statusEl w = Some status ->
  hasHtml2Canvas env = true -> hasJsPdf env = true ->
  html2canvas env el = Ret canvas ->
  toDataURL canvas = Ret imgData ->
  (let w' := snd (App.exportElementAs env "png" (Some el) filenameBase w) in
   statusEl w' = Some (toast ("Downloaded " ++ pngName filenameBase) "success")
   /\ console w' = console w) /\
  (let w' := snd (Teachers.exportElement env "png" (Some el) filenameBase w) in
   statusEl w' = Some (toast ("Downloaded " ++ pngName filenameBase) "success")
   /\ console w' = console w) /\
  (addImageError env imgData = None ->
   saveError env (pdfName filenameBase) = None ->
   (let w' := snd (App.exportElementAs env "pdf" (Some el) filenameBase w) in
    statusEl w' = Some (toast ("Downloaded " ++ pdfName filenameBase) "success")
    /\ console w' = console w) /\
   (let w' := snd (Teachers.exportElement env "pdf" (Some el) filenameBase w) in
    statusEl w' = Some (toast ("Downloaded " ++ pdfName filenameBase) "success")
    /\ console w' = console w)).
Proof.
  intros Es L1 L2 Hc Hd. cbv zeta.
  unfold App.exportElementAs, Teachers.exportElement, pngName, pdfName.
  rewrite (libs_present env L1 L2).
  unfold bind, tryCatch, setStyle, setTimeout, callHtml2canvas,
    canvasToDataURL, pdfAddImage, pdfSave, download, ret,
    App.showStatus, Teachers.showStatus, showToast, set_statusEl.
  cbn. rewrite Hc, Hd. cbn. rewrite Es. cbn.
  split; [split; reflexivity|]. split; [split; reflexivity|].
  intros Ha Hs. rewrite Ha, Hs. cbn. rewrite ?Es. cbn.
  repeat split.
Qed.

Lemma single_export_success_is_announced_witness :
  hasHtml2Canvas (sampleEnv []) = true /\
  html2canvas (sampleEnv []) 1 = Ret canvas1600x900 /\
  statusEl (snd (App.exportElementAs (sampleEnv []) "png" (Some 1)
                   "timetable-Room A" pageWithToast))
  = Some {| textContent := "Downloaded timetable-Room_A.png";
            classList := ["tt-status__toast"; "tt-status__toast--visible";
                          "tt-status__toast--success"] |}.
Proof.
  split; [reflexivity|]. split; [reflexivity|].
  destruct (@single_export_success_is_announced (sampleEnv []) 1
              "timetable-Room A" canvas1600x900
              "data:image/png;base64,iVBORw0KGgo=" pageWithToast _
              eq_refl eq_refl eq_refl eq_refl eq_refl) as [[Hs _] _].
  exact Hs.
Defined.

(** On a page with a status element, a batch export of app.js that
    succeeds shows first the "Preparing" toast and last the "Downloaded"
    success toast, logs nothing, and leaves behind the two hide timers
    of these toasts, the one of 7000 ms before the one of 5000 ms, in
    addition to the timers that were pending. *)
Theorem batch_success_is_announced (env : Env) (w : World) (status : StatusEl) :
  statusEl w = Some status ->
  hasHtml2Canvas env = true -> hasJsPdf env = true ->
  saveError env "timetable-all-classes.pdf" = None ->
  Forall (rendersWell env ".tt-class-card__table-wrapper") (classCards env) ->
  classCards env <> [] ->
  let w' := snd (App.exportAllClassesPdf env w) in
  statusEl w' = Some (toast "Downloaded timetable-all-classes.pdf" "success") /\
  timers w' = timers w ++ [(7000%Z, HideToast); (5000%Z, HideToast)] /\
  console w' = console w /\
  rasterized w'
  = rasterized w ++ regionsOf ".tt-class-card__table-wrapper" (classCards env).
Proof.
  intros Es L1 L2 Hsave Hall Hne. cbv zeta.
  assert (Hrun : exists pdf,
            App.exportAllClassesPdf env w
            = (Ret tt,
               {| statusEl :=
                    Some (toast "Downloaded timetable-all-classes.pdf" "success");
                  teacherCards := teacherCards w;
                  styles := styles w;
                  timers := (timers w ++ [(7000%Z, HideToast)]) ++
                            [(5000%Z, HideToast)];
                  console := console w;
                  downloads := downloads w ++
                               [PdfFile "timetable-all-classes.pdf" pdf];
                  rasterized := rasterized w ++
                                regionsOf ".tt-class-card__table-wrapper"
                                  (classCards env) |})).
  { unfold App.exportAllClassesPdf. rewrite (libs_present env L1 L2).
    destruct (classCards env) as [|card rest] eqn:Ecards; [contradiction|].
    unfold bind at 1. unfold App.showStatus at 1. rewrite Es.
    unfold showToast. cbn [Z.eqb]. unfold setTimeout, set_statusEl.
    cbv beta iota.
    match goal with
    | |- context [bind (exportCards ?e ?a ?f ?s ?c ?p ?b) ?k ?w1] =>
        destruct (@exportCards_renders_all e a f s c Hall p b w1
                    (fun _ => eq_refl)) as (pdf & Hrun & _);
        unfold bind at 1; rewrite Hrun
    end.
    exists pdf.
    unfold bind, pdfSave. rewrite Hsave.
    unfold download, App.showStatus, showToast, set_statusEl, setTimeout,
      add_rasterized.
    cbn. reflexivity. }
  destruct Hrun as [pdf Hrun]. rewrite Hrun. cbn.
  rewrite <- app_assoc. repeat split.
Qed.

Lemma batch_success_is_announced_witness :
  statusEl pageWithToast
  = Some {| textContent := ""; classList := ["tt-status__toast"] |} /\
  Forall (rendersWell (sampleEnv mixedClassCards) ".tt-class-card__table-wrapper")
    (classCards (sampleEnv mixedClassCards)) /\
  timers (snd (App.exportAllClassesPdf (sampleEnv mixedClassCards)
                 pageWithToast))
  = [(7000%Z, HideToast); (5000%Z, HideToast)].
Proof.
  assert (Hall : Forall (rendersWell (sampleEnv mixedClassCards)
                           ".tt-class-card__table-wrapper")
                   (classCards (sampleEnv mixedClassCards))).
  { repeat constructor; cbn;
      exists canvas1600x900, "data:image/png;base64,iVBORw0KGgo=";
      repeat split. }
  split; [reflexivity|]. split; [exact Hall|].
  destruct (@batch_success_is_announced (sampleEnv mixedClassCards)
              pageWithToast _ eq_refl eq_refl eq_refl eq_refl Hall
              ltac:(discriminate)) as (_ & Ht & _).
  exact Ht.
Defined.
